(** * Seal: the sealed-file envelope protocol

    A shallow embedding of [public/seal-crypto.js] (the envelope builder
    [createSealFile], the envelope reader [openSealFile] and the key codec
    [importPublicKey] / [importPrivateKey]) and of the validation and
    decryption pipeline of the viewer page ([handleFileLoaded] in
    [app/viewer/page.tsx]).

    Conventions of the embedding:
    - a JavaScript string is a [string]: a sequence of code units below 256
      (binary strings, base64 text and Latin-1 e-mail addresses);
    - an [ArrayBuffer] / [Uint8Array] is a [list byte];
    - an object used as an open-ended map ([metadata], [localStorage]) is a
      [gmap string _];
    - an [async] function is a computation in the monad [JS]: it threads the
      browser state (clock, random generator, log of Web Crypto calls) and
      either returns a value or throws;
    - the browser's Web Crypto operations and its [Date] are the fields of
      the class [Platform]; what the protocol relies on is stated in
      [PlatformLaws]. [btoa] and [atob] are defined here, bit for bit.

    Part I holds the definitions, Part II the properties. *)

From Stdlib Require Import Strings.String Strings.Ascii Strings.Byte List ZArith Lia Bool DecimalString.
From stdpp Require Import base option list gmap strings.

Local Open Scope string_scope.
Local Open Scope list_scope.

(* ===================================================================== *)
(** * Part I: the program *)
(* ===================================================================== *)

(* ===================================================================== *)
(** ** Base64: the browser's [btoa] and [atob] *)
(* ===================================================================== *)

Module Base64.

(** The digits of RFC 4648, table 1, in the order of their values. *)
Definition alphabet : string :=
  "ABCDEFGHIJKLMNOPQRSTUVWXYZabcdefghijklmnopqrstuvwxyz0123456789+/".

(** Six bits, most significant first. *)
Inductive sextet : Type :=
| Sx (b5 b4 b3 b2 b1 b0 : bool).

Definition nat_of_sextet (s : sextet) : nat :=
  let 'Sx b5 b4 b3 b2 b1 b0 := s in
  32 * Nat.b2n b5 + 16 * Nat.b2n b4 + 8 * Nat.b2n b3
  + 4 * Nat.b2n b2 + 2 * Nat.b2n b1 + Nat.b2n b0.

Definition sextet_of_nat (n : nat) : sextet :=
  Sx (Nat.testbit n 5) (Nat.testbit n 4) (Nat.testbit n 3)
     (Nat.testbit n 2) (Nat.testbit n 1) (Nat.testbit n 0).

Definition digit (s : sextet) : ascii :=
  match String.get (nat_of_sextet s) alphabet with
  | Some c => c
  | None => "A"%char
  end.

Fixpoint position (c : ascii) (s : string) : option nat :=
  match s with
  | EmptyString => None
  | String d r => if Ascii.eqb c d then Some 0 else S <$> position c r
  end.

Definition digit_value (c : ascii) : option sextet :=
  sextet_of_nat <$> position c alphabet.

Definition pad : ascii := "="%char.

(** Three bytes are four sextets; [Ascii] lists the bits of a byte from the
    least significant one. *)
Definition split3 (x y z : ascii) : sextet * sextet * sextet * sextet :=
  let 'Ascii x0 x1 x2 x3 x4 x5 x6 x7 := x in
  let 'Ascii y0 y1 y2 y3 y4 y5 y6 y7 := y in
  let 'Ascii z0 z1 z2 z3 z4 z5 z6 z7 := z in
  (Sx x7 x6 x5 x4 x3 x2, Sx x1 x0 y7 y6 y5 y4,
   Sx y3 y2 y1 y0 z7 z6, Sx z5 z4 z3 z2 z1 z0).

Definition join4 (p q r s : sextet) : ascii * ascii * ascii :=
  let 'Sx p5 p4 p3 p2 p1 p0 := p in
  let 'Sx q5 q4 q3 q2 q1 q0 := q in
  let 'Sx r5 r4 r3 r2 r1 r0 := r in
  let 'Sx s5 s4 s3 s2 s1 s0 := s in
  (Ascii q4 q5 p0 p1 p2 p3 p4 p5,
   Ascii r2 r3 r4 r5 q0 q1 q2 q3,
   Ascii s0 s1 s2 s3 s4 s5 r0 r1).

(** The digits of a byte sequence, without padding: a last group of one
    byte gives two digits, of two bytes three. *)
Fixpoint sextets (bs : list ascii) : list sextet :=
  match bs with
  | [] => []
  | [x] => let '(p, q, _, _) := split3 x zero zero in [p; q]
  | [x; y] => let '(p, q, r, _) := split3 x y zero in [p; q; r]
  | x :: y :: z :: rest =>
      let '(p, q, r, s) := split3 x y z in p :: q :: r :: s :: sextets rest
  end.

(** Padding that completes the last group of four characters. *)
Definition padding (n : nat) : list ascii :=
  match n mod 3 with
  | 1 => [pad; pad]
  | 2 => [pad]
  | _ => []
  end.

Definition encode (bs : list ascii) : list ascii :=
  map digit (sextets bs) ++ padding (length bs).

(** [btoa(binary)]. Every code unit of a [string] is below 256, so the
    [InvalidCharacterError] of [btoa] cannot arise. *)
Definition btoa (binary : string) : string :=
  string_of_list_ascii (encode (list_ascii_of_string binary)).

(** ASCII whitespace: TAB, LF, FF, CR and SPACE. *)
Definition is_whitespace (c : ascii) : bool :=
  match nat_of_ascii c with
  | 9 | 10 | 12 | 13 | 32 => true
  | _ => false
  end.

(** Removes one or two [=] that end the data. *)
Fixpoint strip_padding (l : list ascii) : list ascii :=
  match l with
  | [] => []
  | c :: r =>
      if Ascii.eqb c pad
         && match r with
            | [] => true
            | [d] => Ascii.eqb d pad
            | _ => false
            end
      then []
      else c :: strip_padding r
  end.

Fixpoint digit_values (l : list ascii) : option (list sextet) :=
  match l with
  | [] => Some []
  | c :: r =>
      match digit_value c, digit_values r with
      | Some s, Some ss => Some (s :: ss)
      | _, _ => None
      end
  end.

(** Groups of four sextets are three bytes; of a last group of three the low
    two bits are dropped, of a last group of two the low four. *)
Fixpoint bytes_of_sextets (ss : list sextet) : list ascii :=
  match ss with
  | p :: q :: r :: s :: rest =>
      let '(x, y, z) := join4 p q r s in x :: y :: z :: bytes_of_sextets rest
  | [p; q; r] =>
      let '(x, y, _) := join4 p q r (Sx false false false false false false) in
      [x; y]
  | [p; q] =>
      let z6 := Sx false false false false false false in
      let '(x, _, _) := join4 p q z6 z6 in [x]
  | _ => []
  end.

(** [atob(data)], the forgiving base64 decoding of the HTML standard:
    whitespace is removed, the padding of data whose length is a multiple of
    four is removed, a length of [4k + 1] or a character outside the
    alphabet is an error ([None]: [atob] throws [InvalidCharacterError]). *)
Definition atob (data : string) : option string :=
  let d1 := List.filter (fun c => negb (is_whitespace c))
                        (list_ascii_of_string data) in
  let d2 := if Nat.eqb (length d1 mod 4) 0 then strip_padding d1 else d1 in
  if Nat.eqb (length d2 mod 4) 1 then None
  else match digit_values d2 with
       | Some ss => Some (string_of_list_ascii (bytes_of_sextets ss))
       | None => None
       end.

End Base64.

(* ===================================================================== *)
(** ** The browser *)
(* ===================================================================== *)

(** Primitive values an object read from JSON may hold in a field. *)
Inductive JsValue : Type :=
| JNull
| JBool (b : bool)
| JNum (n : Z)
| JStr (s : string).

(** What JavaScript code throws here: a [DOMException] of [atob] or of
    [crypto.subtle] (known by its name), or [new Error(message)]. *)
Inductive JsError : Type :=
| DOMException (name : string)
| Error (message : string).

(** How an [await] ends. *)
Inductive Outcome (A : Type) : Type :=
| Return (a : A)
| Throw (e : JsError).

Arguments Return {A} a.

Arguments Throw {A} e.

Inductive Algorithm : Type := AES_GCM | RSA_OAEP.

Inductive KeyFormat : Type := raw | spki | pkcs8.

(** The calls into [crypto] a computation makes, oldest first. *)
Inductive CryptoCall : Type :=
| GetRandomValues (length : nat)
| GenerateKey (alg : Algorithm)
| Encrypt (alg : Algorithm)
| Decrypt (alg : Algorithm)
| ImportKey (format : KeyFormat)
| ExportKey (format : KeyFormat).

(** What the browser supplies: [crypto.subtle] for AES-256-GCM and
    RSA-OAEP/SHA-256, [crypto.getRandomValues], and [Date]. A [None] is the
    operation's exception (for [date_parse], [NaN]). *)
Class Platform : Type := {
  AesKey : Type;
  PublicKey : Type;
  PrivateKey : Type;
  Rng : Type;
  getRandomValues : nat -> Rng -> list byte * Rng;
  generateKey_aes : Rng -> AesKey * Rng;
  encrypt_aes : AesKey -> list byte -> list byte -> list byte;
  decrypt_aes : AesKey -> list byte -> list byte -> option (list byte);
  exportKey_raw : AesKey -> list byte;
  importKey_raw : list byte -> option AesKey;
  importKey_spki : list byte -> option PublicKey;
  importKey_pkcs8 : list byte -> option PrivateKey;
  encrypt_rsa : PublicKey -> list byte -> Rng -> option (list byte) * Rng;
  decrypt_rsa : PrivateKey -> list byte -> option (list byte);
  date_parse : string -> option Z;
  date_toISOString : Z -> string;
  date_toLocaleDateString : Z -> string;
  exception_message : string -> string;
}.

(** What the protocol relies on: AES-GCM decrypts what it encrypted under
    the same key and iv, a raw key can be imported again, and the empty
    string is no date. *)
Class PlatformLaws (P : Platform) : Prop := {
  decrypt_encrypt_aes : forall k iv m,
    decrypt_aes k iv (encrypt_aes k iv m) = Some m;
  importKey_exportKey_raw : forall k,
    importKey_raw (exportKey_raw k) = Some k;
  date_parse_empty : date_parse "" = None;
}.

Section Seal.

Context {P : Platform}.

(** A private key matches a public key when it decrypts whatever the public
    key encrypts. *)
Definition matching (pk : PublicKey) (sk : PrivateKey) : Prop :=
  forall m g c g', encrypt_rsa pk m g = (Some c, g') -> decrypt_rsa sk c = Some m.

(** A public key wraps file keys when RSA-OAEP encryption of a raw AES key
    under it succeeds (the modulus is long enough). *)
Definition wraps (pk : PublicKey) : Prop :=
  forall k g, exists c g', encrypt_rsa pk (exportKey_raw k) g = (Some c, g').

(** *** Browser state and the monad of asynchronous code *)

Record World : Type := mkWorld {
  clock : Z;
  random : Rng;
  localStorage : gmap string string;
  calls : list CryptoCall;
}.

Definition JS (A : Type) : Type := World -> Outcome A * World.

#[global] Instance JS_ret : MRet JS := fun A a w => (Return a, w).

#[global] Instance JS_bind : MBind JS := fun A B f m w =>
  match m w with
  | (Return a, w') => f a w'
  | (Throw e, w') => (Throw e, w')
  end.

Definition throw {A} (e : JsError) : JS A := fun w => (Throw e, w).

(** The world after one more call into [crypto]. *)
Definition logged (c : CryptoCall) (w : World) : World :=
  mkWorld (clock w) (random w) (localStorage w) (calls w ++ [c]).

Definition call (c : CryptoCall) : JS unit := fun w => (Return tt, logged c w).

Definition draw {A} (f : Rng -> A * Rng) : JS A := fun w =>
  let '(a, g) := f (random w) in
  (Return a, mkWorld (clock w) g (localStorage w) (calls w)).

(** The result of a [crypto.subtle] operation, or the [DOMException] it
    rejects with. *)
Definition settle {A} (name : string) (r : option A) : JS A :=
  match r with
  | Some a => mret a
  | None => throw (DOMException name)
  end.

Definition Date_now : JS Z := fun w => (Return (clock w), w).

Definition js_atob (data : string) : JS string :=
  settle "InvalidCharacterError" (Base64.atob data).

(** *** [crypto.subtle], call by call *)

Definition subtle_generateKey_aes : JS AesKey :=
  call (GenerateKey AES_GCM);; draw generateKey_aes.

Definition crypto_getRandomValues (n : nat) : JS (list byte) :=
  call (GetRandomValues n);; draw (getRandomValues n).

Definition subtle_encrypt_aes (iv : list byte) (key : AesKey) (data : list byte)
  : JS (list byte) :=
  call (Encrypt AES_GCM);; mret (encrypt_aes key iv data).

Definition subtle_decrypt_aes (iv : list byte) (key : AesKey) (data : list byte)
  : JS (list byte) :=
  call (Decrypt AES_GCM);; settle "OperationError" (decrypt_aes key iv data).

Definition subtle_encrypt_rsa (key : PublicKey) (data : list byte) : JS (list byte) :=
  call (Encrypt RSA_OAEP);;
  r ← draw (encrypt_rsa key data);
  settle "OperationError" r.

Definition subtle_decrypt_rsa (key : PrivateKey) (data : list byte) : JS (list byte) :=
  call (Decrypt RSA_OAEP);; settle "OperationError" (decrypt_rsa key data).

Definition subtle_exportKey_raw (key : AesKey) : JS (list byte) :=
  call (ExportKey raw);; mret (exportKey_raw key).

Definition subtle_importKey_raw (keyData : list byte) : JS AesKey :=
  call (ImportKey raw);; settle "DataError" (importKey_raw keyData).

Definition subtle_importKey_spki (keyData : list byte) : JS PublicKey :=
  call (ImportKey spki);; settle "DataError" (importKey_spki keyData).

Definition subtle_importKey_pkcs8 (keyData : list byte) : JS PrivateKey :=
  call (ImportKey pkcs8);; settle "DataError" (importKey_pkcs8 keyData).

(* ===================================================================== *)
(** ** public/seal-crypto.js *)
(* ===================================================================== *)

Definition generateFileEncryptionKey : JS AesKey := subtle_generateKey_aes.

Definition encryptFile (fileData : list byte) (aesKey : AesKey)
  : JS (list byte * list byte) :=
  iv ← crypto_getRandomValues 12;
  encryptedData ← subtle_encrypt_aes iv aesKey fileData;
  mret (encryptedData, iv).

Definition decryptFile (encryptedData : list byte) (aesKey : AesKey) (iv : list byte)
  : JS (list byte) :=
  subtle_decrypt_aes iv aesKey encryptedData.

Definition encryptKeyForRecipient (aesKey : AesKey) (recipientPublicKey : PublicKey)
  : JS (list byte) :=
  rawKey ← subtle_exportKey_raw aesKey;
  subtle_encrypt_rsa recipientPublicKey rawKey.

Definition decryptKeyForRecipient (encryptedKey : list byte) (userPrivateKey : PrivateKey)
  : JS AesKey :=
  rawKey ← subtle_decrypt_rsa userPrivateKey encryptedKey;
  subtle_importKey_raw rawKey.

(** [for (i...) bytes[i] = binary.charCodeAt(i)] *)
Fixpoint charCodes (binary : string) : list byte :=
  match binary with
  | EmptyString => []
  | String c rest => byte_of_ascii c :: charCodes rest
  end.

(** [for (i...) binary += String.fromCharCode(bytes[i])] *)
Definition fromCharCodes (bytes : list byte) : string :=
  fold_left (fun binary b => binary +:+ String (ascii_of_byte b) EmptyString)
            bytes EmptyString.

Definition importPublicKey (base64Key : string) : JS PublicKey :=
  binaryString ← js_atob base64Key;
  subtle_importKey_spki (charCodes binaryString).

Definition importPrivateKey (base64Key : string) : JS PrivateKey :=
  binaryString ← js_atob base64Key;
  subtle_importKey_pkcs8 (charCodes binaryString).

Definition arrayBufferToBase64 (buffer : list byte) : string :=
  Base64.btoa (fromCharCodes buffer).

Definition base64ToArrayBuffer (base64 : string) : JS (list byte) :=
  binary ← js_atob base64;
  mret (charCodes binary).

(** The [File] handed to [createSealFile]. *)
Record File : Type := mkFile {
  file_arrayBuffer : list byte;
  file_name : string;
  file_type : string;
  file_size : Z;
}.

(** An element of the [recipients] argument of [createSealFile]. *)
Record Recipient : Type := mkRecipient {
  recipient_email : string;
  recipient_publicKey : string;
}.

(** An element of [sealFile.recipients]. *)
Record RecipientEntry : Type := mkEntry {
  email : string;
  encryptedKey : string;
}.

Record SealFile : Type := mkSealFile {
  version : Z;
  fileId : string;
  fileName : string;
  fileType : string;
  fileSize : Z;
  encryptedData : string;
  iv : string;
  recipients : list RecipientEntry;
  metadata : gmap string JsValue;
}.

Record DecryptedFile : Type := mkDecrypted {
  data : list byte;
  decrypted_fileName : string;
  decrypted_fileType : string;
}.

(** The loop [for (const recipient of recipients) { ...; recipientKeys.push(...) }]
    from the state [recipientKeys] of the array. *)
Fixpoint wrapForRecipients (aesKey : AesKey) (recipients : list Recipient)
  (recipientKeys : list RecipientEntry) : JS (list RecipientEntry) :=
  match recipients with
  | [] => mret recipientKeys
  | recipient :: rest =>
      publicKey ← importPublicKey (recipient_publicKey recipient);
      encryptedKey ← encryptKeyForRecipient aesKey publicKey;
      wrapForRecipients aesKey rest
        (recipientKeys ++ [mkEntry (recipient_email recipient)
                                   (arrayBufferToBase64 encryptedKey)])
  end.

Definition createSealFile (file : File) (recipients : list Recipient)
  (fileId : string) (metadata : gmap string JsValue) : JS SealFile :=
  let fileData := file_arrayBuffer file in
  aesKey ← generateFileEncryptionKey;
  '(encryptedData, iv) ← encryptFile fileData aesKey;
  recipientKeys ← wrapForRecipients aesKey recipients [];
  now ← Date_now;
  mret (mkSealFile 1 fileId (file_name file) (file_type file) (file_size file)
          (arrayBufferToBase64 encryptedData) (arrayBufferToBase64 iv)
          recipientKeys
          (<["createdAt" := JStr (date_toISOString now)]> metadata)).

(** [String.prototype.toLowerCase] on code units below 256: the letters
    A-Z and the letters U+00C0-U+00DE other than the sign U+00D7. *)
Definition lower_char (c : ascii) : ascii :=
  let n := nat_of_ascii c in
  if (65 <=? n)%nat && (n <=? 90)%nat
     || (192 <=? n)%nat && (n <=? 222)%nat && negb (n =? 215)%nat
  then ascii_of_nat (n + 32)
  else c.

Fixpoint toLowerCase (s : string) : string :=
  match s with
  | EmptyString => EmptyString
  | String c rest => String (lower_char c) (toLowerCase rest)
  end.

(** [r.email.toLowerCase() === userEmail.toLowerCase()] *)
Definition same_email (userEmail : string) (r : RecipientEntry) : bool :=
  String.eqb (toLowerCase (email r)) (toLowerCase userEmail).

Definition openSealFile (sealFile : SealFile) (userEmail : string)
  (userPrivateKeyBase64 : string) : JS DecryptedFile :=
  match List.find (same_email userEmail) (recipients sealFile) with
  | None => throw (Error "You are not a recipient of this file")
  | Some recipientEntry =>
      privateKey ← importPrivateKey userPrivateKeyBase64;
      encryptedKeyBuffer ← base64ToArrayBuffer (encryptedKey recipientEntry);
      aesKey ← decryptKeyForRecipient encryptedKeyBuffer privateKey;
      encryptedData ← base64ToArrayBuffer (encryptedData sealFile);
      iv ← base64ToArrayBuffer (iv sealFile);
      decryptedData ← decryptFile encryptedData aesKey iv;
      mret (mkDecrypted decryptedData (fileName sealFile) (fileType sealFile))
  end.

(* ===================================================================== *)
(** ** app/viewer/page.tsx *)
(* ===================================================================== *)

Inductive ViewerStep : Type :=
| upload | validating | decrypting | viewing | error.

Inductive ErrorIcon : Type :=
| expired | unauthorized | invalid | generic.

Record ViewerError : Type := mkViewerError {
  title : string;
  message : string;
  icon : ErrorIcon;
}.

(** The state of the page component ([useState]). *)
Record ViewerState : Type := mkViewer {
  step : ViewerStep;
  sealFile : option SealFile;
  decryptedFile : option DecryptedFile;
  viewerError : option ViewerError;
}.

Definition setStep (s : ViewerStep) (st : ViewerState) : ViewerState :=
  mkViewer s (sealFile st) (decryptedFile st) (viewerError st).

Definition setSealFile (f : SealFile) (st : ViewerState) : ViewerState :=
  mkViewer (step st) (Some f) (decryptedFile st) (viewerError st).

Definition setDecryptedFile (d : DecryptedFile) (st : ViewerState) : ViewerState :=
  mkViewer (step st) (sealFile st) (Some d) (viewerError st).

Definition setError (e : ViewerError) (st : ViewerState) : ViewerState :=
  mkViewer (step st) (sealFile st) (decryptedFile st) (Some e).

(** Truthiness of a property that may be absent. *)
Definition truthy (v : option JsValue) : bool :=
  match v with
  | None | Some JNull => false
  | Some (JBool b) => b
  | Some (JNum n) => negb (n =? 0)%Z
  | Some (JStr s) => negb (String.eqb s "")
  end.

(** [new Date(v).getTime()]; [None] is [NaN]. A number is a time value when
    it is within 8.64e15 ms of the epoch. *)
Definition Date_getTime (v : JsValue) : option Z :=
  match v with
  | JNull => Some 0%Z
  | JBool b => Some (if b then 1 else 0)%Z
  | JNum n => if (Z.abs n <=? 8640000000000000)%Z then Some n else None
  | JStr s => date_parse s
  end.

(** [a || b] for a string [a] that may be [undefined] or [null]. *)
Definition or_else (a : option string) (b : string) : string :=
  match a with
  | Some (String c rest) => String c rest
  | _ => b
  end.

(** [s.includes(sub)] *)
Fixpoint includes (sub s : string) : bool :=
  String.prefix sub s
  || match s with
     | EmptyString => false
     | String _ rest => includes sub rest
     end.

(** [err instanceof Error ? err.message : ...]: both kinds of exception are
    instances of [Error]. *)
Definition error_message (err : JsError) : string :=
  match err with
  | DOMException name => exception_message name
  | Error message => message
  end.

Definition expired_error (expiry : Z) : ViewerError :=
  mkViewerError "File expired"
    ("This file expired on " +:+ date_toLocaleDateString expiry
     +:+ ". The sender would need to re-encrypt and send it again.")
    expired.

Definition not_logged_in_error : ViewerError :=
  mkViewerError "Not logged in" "You need to log in to decrypt this file."
    unauthorized.

Definition not_authorized_error (email : string) : ViewerError :=
  mkViewerError "Not authorized"
    ("You (" +:+ email +:+ ") are not a recipient of this file. "
     +:+ "Only the listed recipients can decrypt it.")
    unauthorized.

Definition private_key_not_found_error : ViewerError :=
  mkViewerError "Private key not found"
    ("Your encryption key was not found on this device. You may need to log "
     +:+ "in from the device where you created your account.")
    generic.

Definition decryption_failed_error (err : JsError) : ViewerError :=
  let message := error_message err in
  mkViewerError "Decryption failed"
    (if includes "not a recipient" message
     then "You are not authorized to decrypt this file."
     else "Could not decrypt the file. " +:+ message)
    generic.

(** The expiry test of [handleFileLoaded]: the expiry time when the file
    has expired. *)
Definition expiredAt (seal : SealFile) (now : Z) : option Z :=
  let expiresAt := metadata seal !! "expiresAt" in
  if truthy expiresAt then
    match expiresAt ≫= Date_getTime with
    | Some expiry => if (now >? expiry)%Z then Some expiry else None
    | None => None
    end
  else None.

Section Viewer.

(** [openSealFile] as the page imports it from [@/lib/crypto], and the
    [userEmail] of the component. *)
Variable lib_openSealFile : SealFile -> string -> string -> JS DecryptedFile.

Variable userEmail : option string.

(** [userEmail || localStorage.getItem('seal_user_email') || ''] *)
Definition callerEmail (w : World) : string :=
  or_else userEmail (or_else (localStorage w !! "seal_user_email") "").

(** The decryption part of [handleFileLoaded] (the [try] block). *)
Definition decryptStep (seal : SealFile) (email : string) (st : ViewerState)
  (w : World) : ViewerState * World :=
  match localStorage w !! "seal_private_key" with
  | Some (String c k) =>
      match lib_openSealFile seal email (String c k) w with
      | (Return result, w') => (setStep viewing (setDecryptedFile result st), w')
      | (Throw err, w') => (setStep error (setError (decryption_failed_error err) st), w')
      end
  | _ => (setStep error (setError private_key_not_found_error st), w)
  end.

Definition handleFileLoaded (parsed : SealFile) (st : ViewerState) (w : World)
  : ViewerState * World :=
  let seal := parsed in
  let st := setSealFile seal st in
  let st := setStep validating st in
  match expiredAt seal (clock w) with
  | Some expiry => (setStep error (setError (expired_error expiry) st), w)
  | None =>
      let email := callerEmail w in
      if String.eqb email ""
      then (setStep error (setError not_logged_in_error st), w)
      else
        let isRecipient := existsb (same_email email) (recipients seal) in
        if negb isRecipient
        then (setStep error (setError (not_authorized_error email) st), w)
        else decryptStep seal email (setStep decrypting st) w
  end.

End Viewer.

(* ===================================================================== *)
(** ** Notions the properties are stated with *)
(* ===================================================================== *)

(** The same envelope with other metadata, with another version; the same
    browser at another time. *)
Definition setMetadata (md : gmap string JsValue) (f : SealFile) : SealFile :=
  mkSealFile (version f) (fileId f) (fileName f) (fileType f) (fileSize f)
    (encryptedData f) (iv f) (recipients f) md.

Definition setVersion (v : Z) (f : SealFile) : SealFile :=
  mkSealFile v (fileId f) (fileName f) (fileType f) (fileSize f)
    (encryptedData f) (iv f) (recipients f) (metadata f).

Definition setRecipients (l : list RecipientEntry) (f : SealFile) : SealFile :=
  mkSealFile (version f) (fileId f) (fileName f) (fileType f) (fileSize f)
    (encryptedData f) (iv f) l (metadata f).

Definition setClock (t : Z) (w : World) : World :=
  mkWorld t (random w) (localStorage w) (calls w).

(** The key an encoding denotes: the text is base64 and the bytes it
    decodes to are accepted by the importer. *)
Definition validKey {K : Type} (importer : list byte -> option K)
  (base64Key : string) : option K :=
  Base64.atob base64Key ≫= fun binary => importer (charCodes binary).

(** The first recipient [openSealFile] would find for a caller, on the
    list handed to [createSealFile]. *)
Definition first_match (userEmail : string) (R : list Recipient) : option Recipient :=
  List.find
    (fun r => String.eqb (toLowerCase (recipient_email r)) (toLowerCase userEmail)) R.

(** A recipient whose public-key encoding is valid and fit for wrapping. *)
Definition valid_recipient (r : Recipient) : Prop :=
  exists pk, validKey importKey_spki (recipient_publicKey r) = Some pk /\ wraps pk.

(** A recipient for whom wrapping fails: the encoding is not a key, or
    RSA-OAEP encryption under the key fails. *)
Definition cannot_wrap (r : Recipient) : Prop :=
  match validKey importKey_spki (recipient_publicKey r) with
  | None => True
  | Some pk => forall m g, (encrypt_rsa pk m g).1 = None
  end.

(** The entry [e] is the file key [k] wrapped for the recipient [r]. *)
Definition wrapped (k : AesKey) (r : Recipient) (e : RecipientEntry) : Prop :=
  email e = recipient_email r /\
  exists pk c g g',
    validKey importKey_spki (recipient_publicKey r) = Some pk /\
    encrypt_rsa pk (exportKey_raw k) g = (Some c, g') /\
    encryptedKey e = arrayBufferToBase64 c.

(** One turn of the loop of [createSealFile]. *)
Definition wrapOne (aesKey : AesKey) (recipient : Recipient) : JS RecipientEntry :=
  publicKey ← importPublicKey (recipient_publicKey recipient);
  encryptedKey ← encryptKeyForRecipient aesKey publicKey;
  mret (mkEntry (recipient_email recipient) (arrayBufferToBase64 encryptedKey)).

(** The exceptions primitives of the browser raise. *)
Definition primitive_failure (err : JsError) : Prop :=
  In err [DOMException "InvalidCharacterError"; DOMException "DataError";
          DOMException "OperationError"].

(** A computation that throws nothing but exceptions in [S]. *)
Definition throws_only {A} (S : JsError -> Prop) (m : JS A) : Prop :=
  forall w err w', m w = (Throw err, w') -> S err.

(** A computation that does not read the clock. *)
Definition clock_free {A} (m : JS A) : Prop :=
  forall w t, m (setClock t w) = let '(o, w') := m w in (o, setClock t w').

(** What the page shows, and the browser it leaves. *)
Definition view (r : ViewerState * World)
  : ViewerStep * option DecryptedFile * option ViewerError * World :=
  (step r.1, decryptedFile r.1, viewerError r.1, r.2).

End Seal.

(* ===================================================================== *)
(** ** A symbolic browser and a scenario *)
(* ===================================================================== *)

(** An instance of [Platform] in the style of symbolic protocol models:
    a ciphertext names the key it was made under, and decrypting under
    another key fails. Key encodings carry a two-byte header: [30 30] for a
    public key, [30 02] for a private key; the rest identifies the pair.
    Dates are written as decimal numbers of milliseconds. *)
Module Symbolic.

Fixpoint strip_prefix (p l : list byte) : option (list byte) :=
  match p, l with
  | [], _ => Some l
  | a :: p', b :: l' => if Byte.eqb a b then strip_prefix p' l' else None
  | _ :: _, [] => None
  end.

Definition byte_of_seed (g : nat) : byte :=
  default x00 (Byte.of_nat (g mod 256)).

Definition decimal (t : Z) : string :=
  DecimalString.NilZero.string_of_int (Z.to_int t).

Definition of_decimal (s : string) : option Z :=
  Z.of_int <$> DecimalString.NilZero.int_of_string s.

#[export] Instance platform : Platform := {|
  AesKey := list byte;
  PublicKey := list byte;
  PrivateKey := list byte;
  Rng := nat;
  getRandomValues n g := (repeat (byte_of_seed g) n, S g);
  generateKey_aes g := (repeat (byte_of_seed g) 32, S g);
  encrypt_aes k iv m := k ++ iv ++ m;
  decrypt_aes k iv c := strip_prefix (k ++ iv) c;
  exportKey_raw k := k;
  importKey_raw b := Some b;
  importKey_spki b :=
    match b with
    | x30 :: x30 :: id => Some id
    | _ => None
    end;
  importKey_pkcs8 b :=
    match b with
    | x30 :: x02 :: id => Some id
    | _ => None
    end;
  encrypt_rsa pk m g := (Some (pk ++ m), S g);
  decrypt_rsa sk c := strip_prefix sk c;
  date_parse := of_decimal;
  date_toISOString := decimal;
  date_toLocaleDateString := decimal;
  exception_message name := name;
|}.

(** Encodings of the keys of identity [id], as a key directory and a key
    store would hold them. *)
Definition public_of (id : list byte) : string :=
  arrayBufferToBase64 (x30 :: x30 :: id).

Definition private_of (id : list byte) : string :=
  arrayBufferToBase64 (x30 :: x02 :: id).

Definition key_a : list byte := [x0a].

Definition key_b : list byte := [x0b].

(** The scenario of the specification: a file of ten bytes, sealed at time
    1000 for two recipients. *)
Definition ten_bytes : File :=
  mkFile [x01; x02; x03; x04; x05; x06; x07; x08; x09; x0a] "a.txt" "text/plain" 10.

Definition alice : Recipient := mkRecipient "a@x.com" (public_of key_a).

Definition bob : Recipient := mkRecipient "b@x.com" (public_of key_b).

Definition world0 : World := mkWorld 1000 7%nat ∅ [].

(** A recipient whose key text is no base64. *)
Definition mallory : Recipient := mkRecipient "m@x.com" "not base64!".

(** Caller-supplied metadata with a [createdAt] of its own. *)
Definition metadata0 : gmap string JsValue :=
  <["expiresAt" := JStr "5000"]> (<["createdAt" := JStr "1"]> (<["note" := JBool true]> ∅)).

(** A second entry for the address of [alice], under the key of [bob]. *)
Definition alice_again : Recipient := mkRecipient "a@x.com" (public_of key_b).

(** What sealing [ten_bytes] for [alice] and [bob] with [metadata0] gives
    in [world0], and the browser after it. *)
Definition envelope0 : SealFile :=
  mkSealFile 1 "file-1" "a.txt" "text/plain" 10
    "BwcHBwcHBwcHBwcHBwcHBwcHBwcHBwcHBwcHBwcHBwcICAgICAgICAgICAgBAgMEBQYHCAkK"
    "CAgICAgICAgICAgI"
    [mkEntry "a@x.com" "CgcHBwcHBwcHBwcHBwcHBwcHBwcHBwcHBwcHBwcHBwcH";
     mkEntry "b@x.com" "CwcHBwcHBwcHBwcHBwcHBwcHBwcHBwcHBwcHBwcHBwcH"]
    (<["createdAt" := JStr "1000"]> metadata0).

Definition world1 : World :=
  mkWorld 1000 11%nat ∅
    [GenerateKey AES_GCM; GetRandomValues 12; Encrypt AES_GCM;
     ImportKey spki; ExportKey raw; Encrypt RSA_OAEP;
     ImportKey spki; ExportKey raw; Encrypt RSA_OAEP].

(** The browser of a user at time [t], with the private key [key] in its
    local storage. *)
Definition browser (t : Z) (key : string) : World :=
  mkWorld t 0%nat (<["seal_private_key" := key]> ∅) [].

(** The state of the page before a file is loaded. *)
Definition initial : ViewerState := mkViewer upload None None None.

End Symbolic.

(* ===================================================================== *)
(** ** Key provisioning: [generateKeyPair] and [exportKey] *)
(* ===================================================================== *)

(** What the browser supplies for RSA key pairs: generation of a pair
    (RSA-OAEP, 2048 bits, SHA-256) and the SPKI and PKCS#8 encodings. *)
Class KeyPairs (P : Platform) : Type := {
  generateKey_rsa : Rng -> (PublicKey * PrivateKey) * Rng;
  exportKey_spki : PublicKey -> list byte;
  exportKey_pkcs8 : PrivateKey -> list byte;
}.

(** An encoding can be imported again, and a generated pair is a pair: the
    private key matches the public key, which wraps file keys. *)
Class KeyPairLaws (P : Platform) (K : KeyPairs P) : Prop := {
  importKey_exportKey_spki : forall pk,
    importKey_spki (exportKey_spki pk) = Some pk;
  importKey_exportKey_pkcs8 : forall sk,
    importKey_pkcs8 (exportKey_pkcs8 sk) = Some sk;
  generated_pair : forall g pk sk g',
    generateKey_rsa g = ((pk, sk), g') -> matching pk sk /\ wraps pk;
}.

Section Provisioning.
Context {P : Platform} {K : KeyPairs P}.

(** A [CryptoKey] of an RSA pair. *)
Inductive CryptoKey : Type :=
| PublicCryptoKey (key : PublicKey)
| PrivateCryptoKey (key : PrivateKey).

Record CryptoKeyPair : Type := mkKeyPair {
  publicKey : PublicKey;
  privateKey : PrivateKey;
}.

Definition generateKeyPair : JS CryptoKeyPair :=
  call (GenerateKey RSA_OAEP);;
  '(pk, sk) ← draw generateKey_rsa;
  mret (mkKeyPair pk sk).

(** [crypto.subtle.exportKey(format, key)] for a key of an RSA pair: SPKI is
    the format of public keys, PKCS#8 of private keys ([InvalidAccessError]
    otherwise), and an RSA key has no raw format ([NotSupportedError]). *)
Definition subtle_exportKey (format : KeyFormat) (key : CryptoKey) : JS (list byte) :=
  call (ExportKey format);;
  match format, key with
  | spki, PublicCryptoKey pk => mret (exportKey_spki pk)
  | pkcs8, PrivateCryptoKey sk => mret (exportKey_pkcs8 sk)
  | raw, _ => throw (DOMException "NotSupportedError")
  | _, _ => throw (DOMException "InvalidAccessError")
  end.

Definition exportKey (key : CryptoKey) (format : KeyFormat) : JS string :=
  exported ← subtle_exportKey format key;
  mret (Base64.btoa (fromCharCodes exported)).

End Provisioning.

(* ===================================================================== *)
(** ** The panels of the page *)
(* ===================================================================== *)

(** [handleReset] *)
Definition handleReset (st : ViewerState) : ViewerState :=
  mkViewer upload None None None.

(** The panel the page renders under its header: the [&&] chains of the
    JSX, in their order. *)
Inductive Panel : Type :=
| UploadPanel
| ProcessingPanel (s : ViewerStep)
| ErrorPanel (e : ViewerError)
| ViewingPanel (d : DecryptedFile) (f : SealFile)
| NoPanel.

Definition render (st : ViewerState) : Panel :=
  match step st with
  | upload => UploadPanel
  | validating => ProcessingPanel validating
  | decrypting => ProcessingPanel decrypting
  | error =>
      match viewerError st with
      | Some e => ErrorPanel e
      | None => NoPanel
      end
  | viewing =>
      match decryptedFile st, sealFile st with
      | Some d, Some f => ViewingPanel d f
      | _, _ => NoPanel
      end
  end.

(* ===================================================================== *)
(** ** The file store: [storeEncryptedFile] *)
(* ===================================================================== *)

(** The row inserted into [sealed_files]. *)
Record FileRow : Type := mkFileRow {
  sender_id : string;
  file_name_col : string;
  file_size_col : Z;
  encrypted_data : string;
  iv_col : string;
  expires_at : string;
}.

(** The [fileData] argument of [storeEncryptedFile]. *)
Record FileData : Type := mkFileData {
  fd_file_name : string;
  fd_file_size : Z;
  fd_encrypted_data : string;
  fd_iv : string;
  fd_expires_at : string;
}.

(** An element of the [recipients] argument of [storeEncryptedFile]. *)
Record StoredRecipient : Type := mkStoredRecipient {
  sr_email : string;
  sr_encrypted_key : string;
}.

(** A row inserted into [file_recipients]. *)
Record RecipientRow : Type := mkRecipientRow {
  file_id : string;
  recipient_email_col : string;
  encrypted_key_col : string;
  accessed : bool;
}.

(** The requests a computation sends to the database service, oldest first. *)
Inductive Request : Type :=
| GetUser
| InsertFile (row : FileRow)
| InsertRecipients (rows : list RecipientRow)
| DeleteFile (id : string).

(** The database service: the signed-in user, and the answers
    [{ data, error }] to the two inserts (an error is known by its
    message). *)
Class Supabase : Type := {
  Db : Type;
  auth_getUser : Db -> option string;
  sealed_files_insert : FileRow -> Db -> (option string * option string) * Db;
  file_recipients_insert : list RecipientRow -> Db -> option string * Db;
  sealed_files_delete : string -> Db -> Db;
}.

Section Store.
Context {S : Supabase}.

Record Backend : Type := mkBackend {
  db : Db;
  requests : list Request;
}.

(** [{ fileId } | { error }] *)
Inductive StoreResult : Type :=
| StoredAs (fileId : string)
| StoreError (error : string).

(** [message || fallback] *)
Definition message_or (message fallback : string) : string :=
  match message with
  | EmptyString => fallback
  | _ => message
  end.

Definition storeEncryptedFile (fileData : FileData)
  (recipients : list StoredRecipient) (b : Backend) : StoreResult * Backend :=
  let b := mkBackend (db b) (requests b ++ [GetUser]) in
  match auth_getUser (db b) with
  | None => (StoreError "Not authenticated", b)
  | Some user_id =>
      let row := mkFileRow user_id (fd_file_name fileData) (fd_file_size fileData)
                   (fd_encrypted_data fileData) (fd_iv fileData)
                   (fd_expires_at fileData) in
      let '((fileRecord, fileError), d) := sealed_files_insert row (db b) in
      let b := mkBackend d (requests b ++ [InsertFile row]) in
      match fileError, fileRecord with
      | Some message, _ => (StoreError (message_or message "Failed to store file"), b)
      | None, None => (StoreError "Failed to store file", b)
      | None, Some id =>
          let recipientRecords :=
            map (fun r => mkRecipientRow id (sr_email r) (sr_encrypted_key r) false)
                recipients in
          let '(recipientError, d) := file_recipients_insert recipientRecords (db b) in
          let b := mkBackend d (requests b ++ [InsertRecipients recipientRecords]) in
          match recipientError with
          | Some message =>
              (StoreError message,
               mkBackend (sealed_files_delete id (db b)) (requests b ++ [DeleteFile id]))
          | None => (StoredAs id, b)
          end
      end
  end.

End Store.

(** The row [storeEncryptedFile] inserts for a signed-in user. *)
Definition file_row (uid : string) (fileData : FileData) : FileRow :=
  mkFileRow uid (fd_file_name fileData) (fd_file_size fileData)
    (fd_encrypted_data fileData) (fd_iv fileData) (fd_expires_at fileData).

(** The bytes a base64 text denotes: what [base64ToArrayBuffer] returns
    when [atob] accepts the text. *)
Definition base64Bytes (base64 : string) : option (list byte) :=
  charCodes <$> Base64.atob base64.

(** A call that decrypts. *)
Definition is_decrypt (c : CryptoCall) : bool :=
  match c with
  | Decrypt _ => true
  | _ => false
  end.

(* ===================================================================== *)
(** ** The symbolic browser, continued *)
(* ===================================================================== *)

Module SymbolicKeys.

(** The pair generated from seed [g] has the identity [[byte_of_seed g]];
    the encodings are those of [Symbolic.public_of] and
    [Symbolic.private_of]. *)
Definition generate (g : nat) : (list byte * list byte) * nat :=
  (([Symbolic.byte_of_seed g], [Symbolic.byte_of_seed g]), S g).

Definition encode_spki (id : list byte) : list byte := x30 :: x30 :: id.

Definition encode_pkcs8 (id : list byte) : list byte := x30 :: x02 :: id.

#[export] Instance keypairs : KeyPairs Symbolic.platform :=
  Build_KeyPairs Symbolic.platform generate encode_spki encode_pkcs8.

(** A database of file rows by id; the next id is the number of rows
    written as a decimal. Inserting recipients fails when one of them has
    an empty address. *)
Record Tables : Type := mkTables {
  user : option string;
  sealed_files : list (string * FileRow);
  file_recipients : list RecipientRow;
}.

#[export] Instance supabase : Supabase := {|
  Db := Tables;
  auth_getUser t := user t;
  sealed_files_insert row t :=
    let id := Symbolic.decimal (Z.of_nat (length (sealed_files t))) in
    ((Some id, None), mkTables (user t) (sealed_files t ++ [(id, row)]) (file_recipients t));
  file_recipients_insert rows t :=
    if existsb (fun r => String.eqb (recipient_email_col r) "") rows
    then (Some "null value in column recipient_email", t)
    else (None, mkTables (user t) (sealed_files t) (file_recipients t ++ rows));
  sealed_files_delete id t :=
    mkTables (user t)
      (List.filter (fun r => negb (String.eqb r.1 id)) (sealed_files t))
      (file_recipients t);
|}.

Definition file_data0 : FileData :=
  mkFileData "a.txt" 10 (encryptedData Symbolic.envelope0) (iv Symbolic.envelope0) "5000".

Definition backend0 : Backend :=
  mkBackend (mkTables (Some "user-1") [] []) [].

(** [Symbolic.envelope0] with the last character of the iv changed. *)
Definition tampered0 : SealFile :=
  mkSealFile 1 "file-1" "a.txt" "text/plain" 10
    (encryptedData Symbolic.envelope0)
    "CAgICAgICAgICAgJ"
    (recipients Symbolic.envelope0)
    (metadata Symbolic.envelope0).

End SymbolicKeys.

(* ===================================================================== *)
(** ** The dashboard: [handleLogout] *)
(* ===================================================================== *)

Section Dashboard.
Context {P : Platform}.

(** [localStorage.removeItem(key)] *)
Definition removeItem (key : string) (w : World) : World :=
  mkWorld (clock w) (random w) (delete key (localStorage w)) (calls w).

(** [handleLogout] of the dashboard, as far as the browser state goes that
    the viewer page reads; the sign-out request and the navigation to
    [/login] act on the session and the router. *)
Definition handleLogout (DEMO_MODE : bool) (w : World) : World :=
  if DEMO_MODE then w
  else
    let w := removeItem "seal_private_key" w in
    let w := removeItem "seal_user_email" w in
    w.

End Dashboard.

(* ===================================================================== *)
(** ** The server: CORS headers, the middleware and [POST /api/files] *)
(* ===================================================================== *)

(** [corsHeaders]; the argument is [request.headers.get('Origin')]. *)
Definition corsHeaders (origin_header : option string) : gmap string string :=
  let origin := or_else origin_header "" in
  let headers : gmap string string := ∅ in
  if String.prefix "chrome-extension://" origin || includes "seal.email" origin
  then
    let headers := <["Access-Control-Allow-Origin" := origin]> headers in
    let headers := <["Access-Control-Allow-Credentials" := "true"]> headers in
    let headers := <["Access-Control-Allow-Methods" := "GET, POST, OPTIONS"]> headers in
    let headers :=
      <["Access-Control-Allow-Headers" := "Content-Type, Authorization"]> headers in
    headers
  else headers.

(** What a handler answers: [NextResponse.json(body, { status, headers })],
    the status being 200 when none is given. *)
Inductive ResponseBody : Type :=
| NullBody
| ErrorBody (error : string)
| SuccessBody (fileId : string).

Record Response : Type := mkResponse {
  body : ResponseBody;
  status : Z;
  headers : gmap string string;
}.

Definition handleCorsPreFlight (origin_header : option string) : Response :=
  mkResponse NullBody 204 (corsHeaders origin_header).

(** What the middleware answers: [NextResponse.next()] or a redirection to
    a path of the site. *)
Inductive MiddlewareResult : Type :=
| Next
| Redirect (path : string).

(** [middleware]; [session] tells whether [supabase.auth.getSession()] gave
    a session. *)
Definition middleware (pathname : string) (session : bool) : MiddlewareResult :=
  if String.prefix "/api/" pathname then Next
  else if (String.prefix "/dashboard" pathname || String.prefix "/viewer" pathname)
          && negb session
  then Redirect "/login"
  else if (String.eqb pathname "/login" || String.eqb pathname "/signup") && session
  then Redirect "/dashboard"
  else Next.

(** The result of [authenticateRequest]. *)
Record AuthResult : Type := mkAuthResult {
  authenticated : bool;
  userId : option string;
  auth_email : option string;
}.

(** The JSON body of a request to [POST /api/files], with the types the
    handler takes its fields to have; a field that is absent is [None]. *)
Record FilesRequest : Type := mkFilesRequest {
  req_fileId : option string;
  req_filename : option string;
  req_recipientEmails : option (list string);
  req_expiresAt : option string;
  req_senderEmail : option string;
}.

(** The rows the handler inserts. *)
Record SealedFileRecord : Type := mkSealedFileRecord {
  record_id : string;
  record_sender_id : option string;
  record_file_name : string;
  record_expires_at : option string;
}.

Record FileRecipientRecord : Type := mkFileRecipientRecord {
  record_file_id : string;
  record_recipient_email : string;
  record_accessed : bool;
}.

Inductive AdminRequest : Type :=
| AdminInsertFile (row : SealedFileRecord)
| AdminInsertRecipients (rows : list FileRecipientRecord)
| AdminDeleteFile (id : string).

(** The database behind the service-role client: the answers
    [{ data, error }] to the two inserts, the data of the first being the
    id of the row. *)
Class AdminClient : Type := {
  AdminDb : Type;
  admin_files_insert :
    SealedFileRecord -> AdminDb -> (option string * option string) * AdminDb;
  admin_recipients_insert :
    list FileRecipientRecord -> AdminDb -> option string * AdminDb;
  admin_files_delete : string -> AdminDb -> AdminDb;
}.

(** [process.env] *)
Record Environment : Type := mkEnvironment {
  NEXT_PUBLIC_SUPABASE_URL : option string;
  SUPABASE_SERVICE_ROLE_KEY : option string;
}.

Section FilesRoute.
Context {A : AdminClient}.

Record Server : Type := mkServer {
  admin_db : AdminDb;
  admin_requests : list AdminRequest;
}.

(** [POST] of [/api/files]. [auth] is what [authenticateRequest] resolved
    to and [json] what [request.json()] resolved to ([None] when it
    rejected). Reading [fileRecord.id] of a missing record throws, and the
    handler catches what is thrown. *)
Definition POST (origin_header : option string) (auth : AuthResult)
  (json : option FilesRequest) (env : Environment) (s : Server)
  : Response * Server :=
  let headers := corsHeaders origin_header in
  if negb (authenticated auth)
  then (mkResponse (ErrorBody "Not authenticated") 401 headers, s)
  else
    match json with
    | None => (mkResponse (ErrorBody "Internal server error") 500 headers, s)
    | Some request =>
        match req_fileId request, req_filename request,
              req_recipientEmails request with
        | Some ((String _ _) as fileId), Some ((String _ _) as filename),
          Some ((_ :: _) as recipientEmails) =>
            match NEXT_PUBLIC_SUPABASE_URL env, SUPABASE_SERVICE_ROLE_KEY env with
            | Some (String _ _), Some (String _ _) =>
                let row := mkSealedFileRecord fileId (userId auth) filename
                             (req_expiresAt request) in
                let '((fileRecord, fileError), d) :=
                  admin_files_insert row (admin_db s) in
                let s := mkServer d (admin_requests s ++ [AdminInsertFile row]) in
                match fileError, fileRecord with
                | Some _, _ =>
                    (mkResponse (ErrorBody "Failed to save file metadata") 500 headers, s)
                | None, None =>
                    (mkResponse (ErrorBody "Internal server error") 500 headers, s)
                | None, Some id =>
                    let recipientRecords :=
                      map (fun email => mkFileRecipientRecord id (toLowerCase email) false)
                          recipientEmails in
                    let '(recipientError, d) :=
                      admin_recipients_insert recipientRecords (admin_db s) in
                    let s := mkServer d (admin_requests s
                                         ++ [AdminInsertRecipients recipientRecords]) in
                    match recipientError with
                    | Some _ =>
                        (mkResponse (ErrorBody "Failed to save recipient data") 500 headers,
                         mkServer (admin_files_delete id (admin_db s))
                           (admin_requests s ++ [AdminDeleteFile id]))
                    | None => (mkResponse (SuccessBody id) 200 headers, s)
                    end
                end
            | _, _ => (mkResponse (ErrorBody "Server configuration error") 500 headers, s)
            end
        | _, _, _ => (mkResponse (ErrorBody "Missing required fields") 400 headers, s)
        end
    end.

End FilesRoute.

(** A database for the handler: a file row is refused when its id is
    taken, and the id of an inserted row is the id it was given; recipient
    rows are refused when one of them has an empty address. *)
Module SymbolicServer.

Record Tables : Type := mkTables {
  sealed_files : list SealedFileRecord;
  file_recipients : list FileRecipientRecord;
}.

#[export] Instance admin : AdminClient := {|
  AdminDb := Tables;
  admin_files_insert row t :=
    if existsb (fun r => String.eqb (record_id r) (record_id row)) (sealed_files t)
    then ((None, Some "duplicate key value"), t)
    else ((Some (record_id row), None),
          mkTables (sealed_files t ++ [row]) (file_recipients t));
  admin_recipients_insert rows t :=
    if existsb (fun r => String.eqb (record_recipient_email r) "") rows
    then (Some "null value in column recipient_email", t)
    else (None, mkTables (sealed_files t) (file_recipients t ++ rows));
  admin_files_delete id t :=
    mkTables (List.filter (fun r => negb (String.eqb (record_id r) id)) (sealed_files t))
      (file_recipients t);
|}.

Definition env0 : Environment :=
  mkEnvironment (Some "https://db.example") (Some "service-role").

Definition server0 : Server := mkServer (mkTables [] []) [].

Definition auth0 : AuthResult := mkAuthResult true (Some "user-1") (Some "s@x.com").

Definition request0 : FilesRequest :=
  mkFilesRequest (Some "file-1") (Some "a.txt") (Some ["A@x.com"; "b@x.com"])
    (Some "5000") None.

End SymbolicServer.

(* ===================================================================== *)
(** * Part II: properties *)
(* ===================================================================== *)

(* ===================================================================== *)
(** ** Base64 round trip *)
(* ===================================================================== *)

Section Base64Facts.
Import Base64.

Lemma digit_value_digit (s : sextet) : digit_value (digit s) = Some s.
Proof. destruct s as [[] [] [] [] [] []]; vm_compute; reflexivity. Qed.

Lemma digit_not_pad (s : sextet) : Ascii.eqb (digit s) pad = false.
Proof. destruct s as [[] [] [] [] [] []]; vm_compute; reflexivity. Qed.

Lemma digit_not_whitespace (s : sextet) : is_whitespace (digit s) = false.
Proof. destruct s as [[] [] [] [] [] []]; vm_compute; reflexivity. Qed.

(** Joining undoes splitting. *)
Lemma join4_split3 (x y z : ascii) :
  let '(p, q, r, s) := split3 x y z in join4 p q r s = (x, y, z).
Proof. destruct x, y, z; reflexivity. Qed.

(** Lists by groups of three. *)
Lemma list_ind3 {A} (P : list A -> Prop) :
  P [] -> (forall x, P [x]) -> (forall x y, P [x; y]) ->
  (forall x y z l, P l -> P (x :: y :: z :: l)) ->
  forall l, P l.
Proof.
  intros H0 H1 H2 H3.
  assert (H : forall l, P l /\ (forall x, P (x :: l)) /\ (forall x y, P (x :: y :: l))).
  { induction l as [|a l (IH0 & IH1 & IH2)]; [now auto|].
    split; [apply IH1|]. split; [intros; apply IH2|].
    intros x y. now apply H3. }
  intros l. apply H.
Qed.

Lemma bytes_of_sextets_sextets (bs : list ascii) :
  bytes_of_sextets (sextets bs) = bs.
Proof.
  induction bs as [|x|x y|x y z l IH] using list_ind3.
  - reflexivity.
  - destruct x; reflexivity.
  - destruct x, y; reflexivity.
  - destruct x, y, z. cbn [sextets split3 bytes_of_sextets join4].
    now rewrite IH.
Qed.

Lemma digit_values_digits (ss : list sextet) :
  digit_values (map digit ss) = Some ss.
Proof.
  induction ss as [|s ss IH]; [reflexivity|].
  cbn [map digit_values]. now rewrite digit_value_digit, IH.
Qed.

Lemma padding_step (n : nat) : padding (3 + n) = padding n.
Proof.
  unfold padding. replace ((3 + n) mod 3) with (n mod 3); [reflexivity|].
  change (3 + n) with (1 * 3 + n). rewrite Nat.add_comm.
  now rewrite Nat.Div0.mod_add.
Qed.

Lemma encode_step (x y z : ascii) (l : list ascii) :
  encode (x :: y :: z :: l) =
  let '(p, q, r, s) := split3 x y z in
  digit p :: digit q :: digit r :: digit s :: encode l.
Proof.
  unfold encode. change (length (x :: y :: z :: l)) with (3 + length l).
  rewrite padding_step. destruct x, y, z. reflexivity.
Qed.

Lemma encode_no_whitespace (bs : list ascii) :
  List.filter (fun c => negb (is_whitespace c)) (encode bs) = encode bs.
Proof.
  induction bs as [|x|x y|x y z l IH] using list_ind3.
  - reflexivity.
  - destruct x. cbn. now rewrite !digit_not_whitespace.
  - destruct x, y. cbn. now rewrite !digit_not_whitespace.
  - rewrite encode_step. destruct x, y, z. cbn [split3 List.filter].
    now rewrite !digit_not_whitespace, IH.
Qed.

Lemma encode_length (bs : list ascii) : length (encode bs) mod 4 = 0.
Proof.
  induction bs as [|x|x y|x y z l IH] using list_ind3.
  - reflexivity.
  - destruct x; reflexivity.
  - destruct x, y; reflexivity.
  - rewrite encode_step. destruct x, y, z. cbn [split3 length].
    change (S (S (S (S (length (encode l)))))) with (1 * 4 + length (encode l)).
    now rewrite Nat.add_comm, Nat.Div0.mod_add.
Qed.

Lemma strip_padding_encode (bs : list ascii) :
  strip_padding (encode bs) = map digit (sextets bs).
Proof.
  induction bs as [|x|x y|x y z l IH] using list_ind3.
  - reflexivity.
  - destruct x. cbn. now rewrite !digit_not_pad.
  - destruct x, y. cbn. now rewrite !digit_not_pad.
  - rewrite encode_step. destruct x, y, z.
    cbn [split3 strip_padding sextets map].
    now rewrite !digit_not_pad, IH.
Qed.

Lemma sextets_length (bs : list ascii) :
  Nat.eqb (length (map digit (sextets bs)) mod 4) 1 = false.
Proof.
  induction bs as [|x|x y|x y z l IH] using list_ind3.
  - reflexivity.
  - destruct x; reflexivity.
  - destruct x, y; reflexivity.
  - destruct x, y, z. cbn [split3 sextets map length].
    change (S (S (S (S (length (map digit (sextets l)))))))
      with (1 * 4 + length (map digit (sextets l))).
    now rewrite Nat.add_comm, Nat.Div0.mod_add.
Qed.

(** Decoding what [btoa] produced gives the binary string back. *)
Theorem atob_btoa (binary : string) : atob (btoa binary) = Some binary.
Proof.
  unfold atob, btoa. rewrite list_ascii_of_string_of_list_ascii.
  rewrite encode_no_whitespace, encode_length. cbn [Nat.eqb].
  rewrite strip_padding_encode, sextets_length, digit_values_digits.
  now rewrite bytes_of_sextets_sextets, string_of_list_ascii_of_string.
Qed.

(** The model on known values: the digits and the padding of [btoa], and
    what the forgiving [atob] accepts and rejects. *)
Example btoa_values :
  btoa "Man" = "TWFu" /\ btoa "Ma" = "TWE=" /\ btoa "M" = "TQ==" /\ btoa "" = "".
Proof. repeat split; reflexivity. Qed.

Example atob_values :
  atob "TWFu" = Some "Man" /\ atob "TQ==" = Some "M" /\ atob " TW E" = Some "Ma"
  /\ atob "TQ=" = None /\ atob "T" = None /\ atob "not base64!" = None.
Proof. repeat split; reflexivity. Qed.

End Base64Facts.

(* ===================================================================== *)
(** ** The key codec and the builder *)
(* ===================================================================== *)

(** Unfolds the monad and the calls into [crypto.subtle]. *)
Ltac js_unfold :=
  unfold subtle_generateKey_aes, crypto_getRandomValues, subtle_encrypt_aes,
    subtle_decrypt_aes, subtle_encrypt_rsa, subtle_decrypt_rsa,
    subtle_exportKey_raw, subtle_importKey_raw, subtle_importKey_spki,
    subtle_importKey_pkcs8, js_atob, Date_now, call, draw, settle, throw,
    mbind, mret, JS_bind, JS_ret in *.

Section Codec.

Context {P : Platform}.

Lemma charCodes_app (s t : string) :
  charCodes (s +:+ t) = charCodes s ++ charCodes t.
Proof.
  induction s as [|c s IH]; simpl; [reflexivity | now rewrite IH].
Qed.

Lemma charCodes_loop (bytes : list byte) (binary : string) :
  charCodes
    (fold_left (fun binary b => binary +:+ String (ascii_of_byte b) EmptyString)
               bytes binary)
  = charCodes binary ++ bytes.
Proof.
  revert binary. induction bytes as [|b bytes IH]; intros binary; cbn [fold_left].
  - now rewrite app_nil_r.
  - rewrite IH, charCodes_app. cbn [charCodes].
    now rewrite byte_of_ascii_of_byte, <- app_assoc.
Qed.

Lemma charCodes_fromCharCodes (bytes : list byte) :
  charCodes (fromCharCodes bytes) = bytes.
Proof. unfold fromCharCodes. now rewrite charCodes_loop. Qed.

Lemma base64ToArrayBuffer_arrayBufferToBase64 (buffer : list byte) (w : World) :
  base64ToArrayBuffer (arrayBufferToBase64 buffer) w = (Return buffer, w).
Proof.
  unfold base64ToArrayBuffer, arrayBufferToBase64. js_unfold.
  now rewrite atob_btoa, charCodes_fromCharCodes.
Qed.

Lemma importPublicKey_run (base64Key : string) (w : World) :
  importPublicKey base64Key w =
  match Base64.atob base64Key with
  | None => (Throw (DOMException "InvalidCharacterError"), w)
  | Some binary =>
      (match importKey_spki (charCodes binary) with
       | Some key => Return key
       | None => Throw (DOMException "DataError")
       end, logged (ImportKey spki) w)
  end.
Proof.
  unfold importPublicKey. js_unfold.
  destruct (Base64.atob base64Key) as [binary|]; [|reflexivity].
  now destruct (importKey_spki (charCodes binary)).
Qed.

Lemma importPrivateKey_run (base64Key : string) (w : World) :
  importPrivateKey base64Key w =
  match Base64.atob base64Key with
  | None => (Throw (DOMException "InvalidCharacterError"), w)
  | Some binary =>
      (match importKey_pkcs8 (charCodes binary) with
       | Some key => Return key
       | None => Throw (DOMException "DataError")
       end, logged (ImportKey pkcs8) w)
  end.
Proof.
  unfold importPrivateKey. js_unfold.
  destruct (Base64.atob base64Key) as [binary|]; [|reflexivity].
  now destruct (importKey_pkcs8 (charCodes binary)).
Qed.

End Codec.

Section Builder.
Context {P : Platform}.

Lemma wrapForRecipients_cons k r rest acc w :
  wrapForRecipients k (r :: rest) acc w =
  match wrapOne k r w with
  | (Return e, w') => wrapForRecipients k rest (acc ++ [e]) w'
  | (Throw err, w') => (Throw err, w')
  end.
Proof.
  cbn [wrapForRecipients]. unfold wrapOne, importPublicKey, encryptKeyForRecipient.
  js_unfold.
  destruct (Base64.atob (recipient_publicKey r)) as [binary|]; [|reflexivity].
  destruct (importKey_spki (charCodes binary)) as [pk|]; [|reflexivity].
  cbn. destruct (encrypt_rsa pk (exportKey_raw k) (random w)) as [[c|] g]; reflexivity.
Qed.

Lemma wrapOne_return k r w e w' :
  wrapOne k r w = (Return e, w') -> wrapped k r e /\ clock w' = clock w.
Proof.
  unfold wrapOne, importPublicKey, encryptKeyForRecipient, wrapped, validKey.
  js_unfold.
  destruct (Base64.atob (recipient_publicKey r)) as [binary|]; [|discriminate].
  cbn [option_bind]. 
  destruct (importKey_spki (charCodes binary)) as [pk|]; [|discriminate].
  cbn. destruct (encrypt_rsa pk (exportKey_raw k) (random w)) as [[c|] g] eqn:E;
    [|discriminate].
  intros [= <- <-]. cbn. split; [|reflexivity]. split; [reflexivity|].
  exists pk, c, (random w), g. auto.
Qed.

Lemma wrapOne_throw k r w err w' :
  wrapOne k r w = (Throw err, w') ->
  err = DOMException "InvalidCharacterError" \/ err = DOMException "DataError"
  \/ err = DOMException "OperationError".
Proof.
  unfold wrapOne, importPublicKey, encryptKeyForRecipient. js_unfold.
  destruct (Base64.atob (recipient_publicKey r)) as [binary|];
    [|intros [= <- _]; auto].
  destruct (importKey_spki (charCodes binary)) as [pk|]; [|intros [= <- _]; auto].
  cbn. destruct (encrypt_rsa pk (exportKey_raw k) (random w)) as [[c|] g];
    [discriminate | intros [= <- _]; auto].
Qed.

Lemma wrapOne_valid k r w :
  valid_recipient r -> exists e w', wrapOne k r w = (Return e, w').
Proof.
  intros (pk & Hpk & Hw). unfold validKey in Hpk.
  unfold wrapOne, importPublicKey, encryptKeyForRecipient. js_unfold.
  destruct (Base64.atob (recipient_publicKey r)) as [binary|]; [|discriminate].
  cbn in Hpk. rewrite Hpk. cbn.
  destruct (Hw k (random w)) as (c & g & ->). eauto.
Qed.

Lemma wrapOne_cannot k r w :
  cannot_wrap r -> exists err w', wrapOne k r w = (Throw err, w').
Proof.
  unfold cannot_wrap, validKey.
  unfold wrapOne, importPublicKey, encryptKeyForRecipient. js_unfold.
  destruct (Base64.atob (recipient_publicKey r)) as [binary|]; [|eauto].
  cbn [option_bind mbind].
  destruct (importKey_spki (charCodes binary)) as [pk|]; [|eauto].
  intros H. cbn. specialize (H (exportKey_raw k) (random w)).
  destruct (encrypt_rsa pk (exportKey_raw k) (random w)) as [[c|] g];
    [discriminate | eauto].
Qed.

Lemma wrapForRecipients_return k R acc w l w' :
  wrapForRecipients k R acc w = (Return l, w') ->
  (exists es, l = acc ++ es /\ Forall2 (wrapped k) R es) /\ clock w' = clock w.
Proof.
  revert acc w. induction R as [|r R IH]; intros acc w.
  - intros [= <- <-]. split; [|reflexivity]. exists []. now rewrite app_nil_r.
  - rewrite wrapForRecipients_cons.
    destruct (wrapOne k r w) as [[e|err] w1] eqn:E; [|discriminate].
    intros H. apply IH in H as [(es & -> & HF) Hc].
    apply wrapOne_return in E as [Hw Hc1]. split; [|congruence].
    exists (e :: es). rewrite <- app_assoc. split; [reflexivity|].
    now constructor.
Qed.

Lemma wrapForRecipients_throw k R acc w err w' :
  wrapForRecipients k R acc w = (Throw err, w') ->
  err = DOMException "InvalidCharacterError" \/ err = DOMException "DataError"
  \/ err = DOMException "OperationError".
Proof.
  revert acc w. induction R as [|r R IH]; intros acc w; [discriminate|].
  rewrite wrapForRecipients_cons.
  destruct (wrapOne k r w) as [[e|err1] w1] eqn:E.
  - apply IH.
  - intros [= <- _]. eapply wrapOne_throw, E.
Qed.

Lemma wrapForRecipients_valid k R acc w :
  Forall valid_recipient R ->
  exists l w', wrapForRecipients k R acc w = (Return l, w').
Proof.
  intros HR. revert acc w. induction HR as [|r R Hr _ IH]; intros acc w.
  - cbn. js_unfold. eauto.
  - rewrite wrapForRecipients_cons.
    destruct (wrapOne_valid k r w Hr) as (e & w1 & ->). apply IH.
Qed.

Lemma wrapForRecipients_cannot k R acc w :
  Exists cannot_wrap R ->
  exists err w', wrapForRecipients k R acc w = (Throw err, w').
Proof.
  intros HR. revert acc w. induction HR as [r R Hr|r R _ IH]; intros acc w;
    rewrite wrapForRecipients_cons.
  - destruct (wrapOne_cannot k r w Hr) as (err & w1 & ->). eauto.
  - destruct (wrapOne k r w) as [[e|err] w1]; [apply IH | eauto].
Qed.

(** [createSealFile], step by step: the key and the iv drawn, then the
    loop, then the record. *)
Lemma createSealFile_run file R fileId md w :
  createSealFile file R fileId md w =
  let '(k, g1) := generateKey_aes (random w) in
  let '(ivb, g2) := getRandomValues 12 g1 in
  let w1 := logged (Encrypt AES_GCM)
              (mkWorld (clock w) g2 (localStorage w)
                 ((calls w ++ [GenerateKey AES_GCM]) ++ [GetRandomValues 12])) in
  match wrapForRecipients k R [] w1 with
  | (Return l, w2) =>
      (Return (mkSealFile 1 fileId (file_name file) (file_type file) (file_size file)
                 (arrayBufferToBase64 (encrypt_aes k ivb (file_arrayBuffer file)))
                 (arrayBufferToBase64 ivb) l
                 (<["createdAt" := JStr (date_toISOString (clock w2))]> md)), w2)
  | (Throw err, w2) => (Throw err, w2)
  end.
Proof.
  unfold createSealFile, generateFileEncryptionKey, encryptFile. js_unfold.
  unfold logged. cbn.
  destruct (generateKey_aes (random w)) as [k g1]. cbn.
  destruct (getRandomValues 12 g1) as [ivb g2]. cbn.
  match goal with |- context [wrapForRecipients k R [] ?w1] =>
    destruct (wrapForRecipients k R [] w1) as [[l|err] w2] end; reflexivity.
Qed.

End Builder.

(* ===================================================================== *)
(** ** Sealing, then opening *)
(* ===================================================================== *)

Section RoundTrip.

Context {P : Platform}.

Lemma createSealFile_return file R fileId md w e w' :
  createSealFile file R fileId md w = (Return e, w') ->
  exists k ivb,
    e = mkSealFile 1 fileId (file_name file) (file_type file) (file_size file)
          (arrayBufferToBase64 (encrypt_aes k ivb (file_arrayBuffer file)))
          (arrayBufferToBase64 ivb) (recipients e)
          (<["createdAt" := JStr (date_toISOString (clock w))]> md)
    /\ Forall2 (wrapped k) R (recipients e).
Proof.
  rewrite createSealFile_run.
  destruct (generateKey_aes (random w)) as [k g1].
  destruct (getRandomValues 12 g1) as [ivb g2]. cbv zeta.
  match goal with |- context [wrapForRecipients k R [] ?w1] =>
    destruct (wrapForRecipients k R [] w1) as [[l|err] w2] eqn:E end;
    [|discriminate].
  apply wrapForRecipients_return in E as [(es & -> & HF) Hc].
  intros [= <- <-]. cbn in *. exists k, ivb. rewrite Hc. auto.
Qed.

Lemma find_wrapped k R es userEmail :
  Forall2 (wrapped k) R es ->
  match first_match userEmail R with
  | Some r => exists e, List.find (same_email userEmail) es = Some e /\ wrapped k r e
  | None => List.find (same_email userEmail) es = None
  end.
Proof.
  unfold first_match. induction 1 as [|r e R es [He Hk] _ IH]; [reflexivity|].
  cbn [List.find]. unfold same_email at 1 3. rewrite He.
  destruct (String.eqb _ _); [|exact IH].
  exists e. split; [reflexivity | now split].
Qed.

(** Opening succeeds when the entry found for the caller holds the file key
    wrapped so that the caller's private key recovers it. *)
Lemma openSealFile_return {L : PlatformLaws P} sealFile userEmail skenc w
    entry sk c k ivb plaintext :
  List.find (same_email userEmail) (recipients sealFile) = Some entry ->
  validKey importKey_pkcs8 skenc = Some sk ->
  encryptedKey entry = arrayBufferToBase64 c ->
  decrypt_rsa sk c = Some (exportKey_raw k) ->
  encryptedData sealFile = arrayBufferToBase64 (encrypt_aes k ivb plaintext) ->
  iv sealFile = arrayBufferToBase64 ivb ->
  exists w',
    openSealFile sealFile userEmail skenc w =
    (Return (mkDecrypted plaintext (fileName sealFile) (fileType sealFile)), w').
Proof.
  intros Hfind Hsk Hc Hdec Hdata Hiv.
  unfold openSealFile. rewrite Hfind. unfold mbind at 1, JS_bind at 1.
  rewrite importPrivateKey_run. unfold validKey in Hsk.
  destruct (Base64.atob skenc) as [binary|]; [|discriminate].
  cbn in Hsk. rewrite Hsk.
  unfold mbind at 1, JS_bind at 1.
  rewrite Hc, base64ToArrayBuffer_arrayBufferToBase64.
  unfold mbind at 1, JS_bind at 1.
  unfold decryptKeyForRecipient at 1. js_unfold.
  rewrite Hdec, importKey_exportKey_raw.
  rewrite Hdata, base64ToArrayBuffer_arrayBufferToBase64.
  rewrite Hiv, base64ToArrayBuffer_arrayBufferToBase64.
  unfold decryptFile. js_unfold. rewrite decrypt_encrypt_aes.
  eexists. reflexivity.
Qed.

(** Sealing, then opening as the caller [userEmail] with a private key that
    matches the key of the first recipient found for that caller. *)
Lemma seal_then_open {L : PlatformLaws P} file R fileId md w e w1
    userEmail r0 pk0 skenc sk w2 :
  createSealFile file R fileId md w = (Return e, w1) ->
  first_match userEmail R = Some r0 ->
  validKey importKey_spki (recipient_publicKey r0) = Some pk0 ->
  matching pk0 sk ->
  validKey importKey_pkcs8 skenc = Some sk ->
  exists w3,
    openSealFile e userEmail skenc w2 =
    (Return (mkDecrypted (file_arrayBuffer file) (file_name file) (file_type file)),
     w3).
Proof.
  intros Hc Hfirst Hpk Hm Hsk.
  apply createSealFile_return in Hc as (k & ivb & He & HF).
  pose proof (find_wrapped k R (recipients e) userEmail HF) as Hfind.
  rewrite Hfirst in Hfind. destruct Hfind as (entry & Hfind & _ & Hw).
  destruct Hw as (pk & c & g & g' & Hpk' & Henc & Hek).
  assert (pk = pk0) as -> by congruence.
  destruct (openSealFile_return e userEmail skenc w2 entry sk c k ivb
              (file_arrayBuffer file)) as (w3 & Ho); auto.
  - eapply Hm, Henc.
  - now rewrite He.
  - now rewrite He.
  - exists w3. rewrite Ho, He. reflexivity.
Qed.

End RoundTrip.

(* ===================================================================== *)
(** ** The claims *)
(* ===================================================================== *)

Section Claims.

Context {P : Platform}.

Lemma createSealFile_valid file R fileId md w :
  Forall valid_recipient R ->
  exists e w1, createSealFile file R fileId md w = (Return e, w1).
Proof.
  intros HR. rewrite createSealFile_run.
  destruct (generateKey_aes (random w)) as [k g1].
  destruct (getRandomValues 12 g1) as [ivb g2]. cbv zeta.
  match goal with |- context [wrapForRecipients k R [] ?w1] =>
    destruct (wrapForRecipients_valid k R [] w1 HR) as (l & w2 & ->) end.
  eauto.
Qed.

Lemma first_match_In r R :
  In r R -> exists r0, first_match (recipient_email r) R = Some r0.
Proof.
  intros Hin. unfold first_match.
  destruct (List.find _ R) as [r0|] eqn:E; [eauto|].
  apply (List.find_none _ _ E) in Hin. cbn in Hin.
  now rewrite String.eqb_refl in Hin.
Qed.

Lemma first_match_distinct r R :
  List.NoDup (map (fun r => toLowerCase (recipient_email r)) R) ->
  In r R -> first_match (recipient_email r) R = Some r.
Proof.
  induction R as [|a R IH]; intros Hnd Hin; [destruct Hin|].
  inversion Hnd as [|? ? Hni Hnd']; subst. unfold first_match. cbn [List.find].
  destruct (String.eqb_spec (toLowerCase (recipient_email a))
              (toLowerCase (recipient_email r))) as [E|E].
  - destruct Hin as [->|Hin]; [reflexivity|]. exfalso. apply Hni. rewrite E.
    now apply (in_map (fun r => toLowerCase (recipient_email r))).
  - destruct Hin as [->|Hin]; [contradiction|]. now apply IH.
Qed.

(** C1 (as amended). Sealing [file] for a list [R] of recipients whose
    public-key encodings are valid succeeds, and every recipient [r] of [R]
    who opens the envelope with their own address and a private key gets the
    original bytes, file name and file type back, provided the private key
    matches the public key of the first entry of [R] whose address equals
    the address of [r] up to letter case (which is [r] itself when the
    addresses of [R] are distinct up to letter case). *)
Theorem round_trip {L : PlatformLaws P} file R fileId md w :
  Forall valid_recipient R ->
  (exists e w1,
    createSealFile file R fileId md w = (Return e, w1) /\
    forall r skenc sk w2,
      In r R ->
      validKey importKey_pkcs8 skenc = Some sk ->
      (forall r0, first_match (recipient_email r) R = Some r0 ->
         exists pk0, validKey importKey_spki (recipient_publicKey r0) = Some pk0
                     /\ matching pk0 sk) ->
      exists w3,
        openSealFile e (recipient_email r) skenc w2 =
        (Return (mkDecrypted (file_arrayBuffer file) (file_name file)
                   (file_type file)), w3))
  /\ (List.NoDup (map (fun r => toLowerCase (recipient_email r)) R) ->
      forall r, In r R -> first_match (recipient_email r) R = Some r).
Proof.
  intros HR. split; [|intros Hnd r Hin; now apply first_match_distinct].
  destruct (createSealFile_valid file R fileId md w HR) as (e & w1 & Hc).
  exists e, w1. split; [exact Hc|].
  intros r skenc sk w2 Hin Hsk Hfirst.
  destruct (first_match_In r R Hin) as (r0 & Hr0).
  destruct (Hfirst r0 Hr0) as (pk0 & Hpk0 & Hm).
  eapply seal_then_open; eauto.
Qed.

(** C4. All-or-nothing build: when wrapping fails for one of the requested
    recipients (the key text is no base64, the bytes are no key, or RSA-OAEP
    encryption fails), [createSealFile] throws the exception of the failing
    primitive and returns no envelope; and an envelope that is returned has
    one entry per requested recipient, in the order of the request. *)
Theorem all_or_nothing file R fileId md w :
  (Exists cannot_wrap R ->
   exists err w',
     createSealFile file R fileId md w = (Throw err, w') /\ primitive_failure err)
  /\ (forall e w', createSealFile file R fileId md w = (Return e, w') ->
      map email (recipients e) = map recipient_email R).
Proof.
  split.
  - intros HR. rewrite createSealFile_run.
    destruct (generateKey_aes (random w)) as [k g1].
    destruct (getRandomValues 12 g1) as [ivb g2]. cbv zeta.
    match goal with |- context [wrapForRecipients k R [] ?w1] =>
      destruct (wrapForRecipients_cannot k R [] w1 HR) as (err & w2 & E) end.
    rewrite E. exists err, w2. split; [reflexivity|].
    apply wrapForRecipients_throw in E. unfold primitive_failure.
    destruct E as [-> | [-> | ->]]; cbn; auto.
  - intros e w' Hc. apply createSealFile_return in Hc as (k & ivb & _ & HF).
    induction HF as [|r x R es [He _] _ IH]; [reflexivity|].
    cbn [map]. now rewrite He, IH.
Qed.

(** C6 (as amended). [createSealFile] does not reject an empty list of
    recipients: the call returns an envelope whose [recipients] is empty,
    and which [openSealFile] opens for nobody. *)
Theorem empty_recipients_sealed file fileId md w :
  exists e w',
    createSealFile file [] fileId md w = (Return e, w') /\
    recipients e = [] /\
    forall userEmail skenc w2,
      openSealFile e userEmail skenc w2 =
      (Throw (Error "You are not a recipient of this file"), w2).
Proof.
  rewrite createSealFile_run.
  destruct (generateKey_aes (random w)) as [k g1].
  destruct (getRandomValues 12 g1) as [ivb g2]. cbn.
  eexists _, _. split; [reflexivity|]. split; reflexivity.
Qed.

(** C10. The metadata of the envelope is the metadata handed to
    [createSealFile] with [createdAt] set to the time of the build: a
    [createdAt] of the caller is overridden, every other field is kept as
    it was, and no field is added. *)
Theorem metadata_preserved file R fileId md w e w' :
  createSealFile file R fileId md w = (Return e, w') ->
  metadata e !! "createdAt" = Some (JStr (date_toISOString (clock w)))
  /\ forall key, key <> "createdAt" -> metadata e !! key = md !! key.
Proof.
  intros Hc. apply createSealFile_return in Hc as (k & ivb & -> & _).
  cbn [metadata]. split.
  - apply lookup_insert_eq.
  - intros key Hkey. now apply lookup_insert_ne.
Qed.

(** C8. Importing a key fails when the text is not base64 (the
    [InvalidCharacterError] of [atob]) and when the decoded bytes are not a
    key of the expected format (the [DataError] of [importKey]); these two
    rejections are the key-format error of the specification. A key that is
    returned is the one the decoded bytes denote. *)
Theorem key_import_failure base64Key w :
  (Base64.atob base64Key = None ->
     importPublicKey base64Key w
       = (Throw (DOMException "InvalidCharacterError"), w)
     /\ importPrivateKey base64Key w
       = (Throw (DOMException "InvalidCharacterError"), w))
  /\ (forall binary, Base64.atob base64Key = Some binary ->
        importKey_spki (charCodes binary) = None ->
        importPublicKey base64Key w
        = (Throw (DOMException "DataError"), logged (ImportKey spki) w))
  /\ (forall binary, Base64.atob base64Key = Some binary ->
        importKey_pkcs8 (charCodes binary) = None ->
        importPrivateKey base64Key w
        = (Throw (DOMException "DataError"), logged (ImportKey pkcs8) w))
  /\ (forall key w', importPublicKey base64Key w = (Return key, w') ->
        validKey importKey_spki base64Key = Some key)
  /\ (forall key w', importPrivateKey base64Key w = (Return key, w') ->
        validKey importKey_pkcs8 base64Key = Some key).
Proof.
  rewrite importPublicKey_run, importPrivateKey_run. unfold validKey.
  destruct (Base64.atob base64Key) as [binary|]; cbn [mbind option_bind].
  - split; [discriminate|].
    split; [intros ? [= <-] ->; reflexivity|].
    split; [intros ? [= <-] ->; reflexivity|].
    split.
    + destruct (importKey_spki (charCodes binary)); now intros ? ? [= <- _].
    + destruct (importKey_pkcs8 (charCodes binary)); now intros ? ? [= <- _].
  - split; [auto|]. repeat split; discriminate.
Qed.

Lemma find_same_email sealFile userEmail other :
  toLowerCase other = toLowerCase userEmail ->
  List.find (same_email other) (recipients sealFile)
  = List.find (same_email userEmail) (recipients sealFile).
Proof.
  intros H. unfold same_email. now rewrite H.
Qed.

Lemma find_no_match (l : list RecipientEntry) userEmail :
  (forall r, In r l -> toLowerCase (email r) <> toLowerCase userEmail) ->
  List.find (same_email userEmail) l = None /\ existsb (same_email userEmail) l = false.
Proof.
  induction l as [|r l IH]; intros H; [now split|].
  cbn [List.find existsb]. unfold same_email at 1 3.
  destruct (String.eqb_spec (toLowerCase (email r)) (toLowerCase userEmail)) as [E|_].
  - destruct (H r); [now left | exact E].
  - apply IH. intros r' Hr'. apply H. now right.
Qed.

Lemma throws_only_bind {A B} S (m : JS A) (f : A -> JS B) :
  throws_only S m -> (forall a, throws_only S (f a)) -> throws_only S (m ≫= f).
Proof.
  intros Hm Hf w err w'. unfold mbind, JS_bind.
  destruct (m w) as [[a|e] w1] eqn:E.
  - apply Hf.
  - intros [= <- _]. eapply Hm, E.
Qed.

Lemma throws_only_ret {A} S (a : A) : throws_only S (mret a).
Proof. intros w err w'. discriminate. Qed.

Lemma throws_only_call S c : throws_only S (call c).
Proof. intros w err w'. discriminate. Qed.

Lemma throws_only_draw {A} S (f : Rng -> A * Rng) : throws_only S (draw f).
Proof. intros w err w'. unfold draw. destruct (f (random w)). discriminate. Qed.

Lemma throws_only_settle {A} (S : JsError -> Prop) name (r : option A) :
  S (DOMException name) -> throws_only S (settle name r).
Proof. intros HS w err w'. destruct r; [discriminate | now intros [= <- _]]. Qed.

Lemma clock_free_bind {A B} (m : JS A) (f : A -> JS B) :
  clock_free m -> (forall a, clock_free (f a)) -> clock_free (m ≫= f).
Proof.
  intros Hm Hf w t. unfold mbind, JS_bind. rewrite Hm.
  destruct (m w) as [[a|e] w1]; [apply Hf | reflexivity].
Qed.

Lemma clock_free_ret {A} (a : A) : clock_free (mret a).
Proof. intros w t. reflexivity. Qed.

Lemma clock_free_call c : clock_free (call c).
Proof. intros w t. reflexivity. Qed.

Lemma clock_free_draw {A} (f : Rng -> A * Rng) : clock_free (draw f).
Proof. intros w t. unfold draw. cbn. now destruct (f (random w)). Qed.

Lemma clock_free_settle {A} name (r : option A) : clock_free (settle name r).
Proof. intros w t. now destruct r. Qed.

Lemma clock_free_throw {A} err : clock_free (throw (A := A) err).
Proof. intros w t. reflexivity. Qed.

Create HintDb js discriminated.

#[local] Hint Resolve throws_only_ret throws_only_call throws_only_draw
  clock_free_ret clock_free_call clock_free_draw clock_free_settle
  clock_free_throw : js.

#[local] Hint Extern 1 (throws_only _ (settle _ _)) =>
  apply throws_only_settle; cbn; tauto : js.

#[local] Hint Extern 2 (throws_only _ (_ ≫= _)) =>
  apply throws_only_bind; [|intros ?] : js.

#[local] Hint Extern 2 (clock_free (_ ≫= _)) =>
  apply clock_free_bind; [|intros ?] : js.

(** Unfolds the functions of seal-crypto.js down to the browser calls. *)
Ltac seal_unfold :=
  unfold importPrivateKey, importPublicKey, base64ToArrayBuffer,
    decryptKeyForRecipient, encryptKeyForRecipient, decryptFile, encryptFile,
    subtle_generateKey_aes, crypto_getRandomValues, subtle_encrypt_aes,
    subtle_decrypt_aes, subtle_encrypt_rsa, subtle_decrypt_rsa,
    subtle_exportKey_raw, subtle_importKey_raw, subtle_importKey_spki,
    subtle_importKey_pkcs8, js_atob.

Lemma openSealFile_throw sealFile userEmail skenc w err w' :
  openSealFile sealFile userEmail skenc w = (Throw err, w') ->
  (err = Error "You are not a recipient of this file"
   /\ List.find (same_email userEmail) (recipients sealFile) = None /\ w' = w)
  \/ primitive_failure err.
Proof.
  unfold openSealFile.
  destruct (List.find _ _) as [entry|]; [|intros [= <- <-]; now left].
  intros H. right. revert w err w' H.
  change (throws_only primitive_failure
    (privateKey ← importPrivateKey skenc;
     encryptedKeyBuffer ← base64ToArrayBuffer (encryptedKey entry);
     aesKey ← decryptKeyForRecipient encryptedKeyBuffer privateKey;
     encryptedData ← base64ToArrayBuffer (encryptedData sealFile);
     iv ← base64ToArrayBuffer (iv sealFile);
     decryptedData ← decryptFile encryptedData aesKey iv;
     mret (mkDecrypted decryptedData (fileName sealFile) (fileType sealFile)))).
  seal_unfold. unfold primitive_failure. auto 20 with js.
Qed.

Lemma openSealFile_clock_free sealFile userEmail skenc :
  clock_free (openSealFile sealFile userEmail skenc).
Proof.
  unfold openSealFile. destruct (List.find _ _) as [entry|]; [|auto with js].
  seal_unfold. auto 20 with js.
Qed.

(** C2. The recipient lookup ignores letter case, and it is exclusive.
    - A caller whose address equals another up to letter case gets what that
      other address gets.
    - On an envelope sealed for [R], a caller whose address equals, up to
      letter case, that of a recipient of [R] (the first such is [r0]), and
      whose private key matches the key of [r0], gets the file.
    - A caller whose address equals that of no entry up to letter case gets
      the error "You are not a recipient of this file", and the browser is
      left as it was: no call into [crypto] is made, so no key is unwrapped
      and nothing is decrypted. In the viewer the same caller gets, for a
      file that has not expired, an error with the icon [unauthorized]
      ("Not authorized", or "Not logged in" when the address is empty), and
      the [openSealFile] the page imports is not called. *)
Theorem authorization_lookup {L : PlatformLaws P} sealFile userEmail skenc w :
  (forall other, toLowerCase other = toLowerCase userEmail ->
     openSealFile sealFile other skenc w = openSealFile sealFile userEmail skenc w)
  /\ (forall file R fileId md w0 w1 r0 pk0 sk,
        createSealFile file R fileId md w0 = (Return sealFile, w1) ->
        first_match userEmail R = Some r0 ->
        validKey importKey_spki (recipient_publicKey r0) = Some pk0 ->
        matching pk0 sk ->
        validKey importKey_pkcs8 skenc = Some sk ->
        exists w3,
          openSealFile sealFile userEmail skenc w =
          (Return (mkDecrypted (file_arrayBuffer file) (file_name file)
                     (file_type file)), w3))
  /\ ((forall r, In r (recipients sealFile) ->
         toLowerCase (email r) <> toLowerCase userEmail) ->
      openSealFile sealFile userEmail skenc w =
        (Throw (Error "You are not a recipient of this file"), w)
      /\ forall lib ue st,
          expiredAt sealFile (clock w) = None ->
          callerEmail ue w = userEmail ->
          exists err,
            handleFileLoaded lib ue sealFile st w =
            (setStep error
               (setError err (setStep validating (setSealFile sealFile st))), w)
            /\ icon err = unauthorized
            /\ (userEmail <> "" -> err = not_authorized_error userEmail)).
Proof.
  split; [|split].
  - intros other H. unfold openSealFile. now rewrite (find_same_email _ _ _ H).
  - intros. eapply seal_then_open; eauto.
  - intros H. apply find_no_match in H as [Hfind Hex]. split.
    + unfold openSealFile. now rewrite Hfind.
    + intros lib ue st Hexp Hue. unfold handleFileLoaded.
      rewrite Hexp, Hue, Hex.
      destruct (String.eqb_spec userEmail "") as [->|Hne].
      * exists not_logged_in_error. split; [reflexivity|].
        split; [reflexivity | contradiction].
      * exists (not_authorized_error userEmail). split; [reflexivity|].
        split; reflexivity.
Qed.

(** C9. [openSealFile] makes no expiry check: it reads neither the metadata
    of the envelope nor the clock. An envelope that was sealed and has
    expired at the time of the call is still opened for a recipient who
    holds the matching private key. What [openSealFile] throws is the error
    of a caller who is no recipient, or the exception of a primitive of the
    browser ([atob], [importKey], [decrypt]). *)
Theorem open_ignores_expiry {L : PlatformLaws P} sealFile userEmail skenc w :
  (forall md,
     openSealFile (setMetadata md sealFile) userEmail skenc w
     = openSealFile sealFile userEmail skenc w)
  /\ (forall t,
        openSealFile sealFile userEmail skenc (setClock t w)
        = let '(o, w') := openSealFile sealFile userEmail skenc w in
          (o, setClock t w'))
  /\ (forall file R fileId md w0 w1 r0 pk0 sk T,
        createSealFile file R fileId md w0 = (Return sealFile, w1) ->
        first_match userEmail R = Some r0 ->
        validKey importKey_spki (recipient_publicKey r0) = Some pk0 ->
        matching pk0 sk ->
        validKey importKey_pkcs8 skenc = Some sk ->
        expiredAt sealFile (clock w) = Some T ->
        exists w3,
          openSealFile sealFile userEmail skenc w =
          (Return (mkDecrypted (file_arrayBuffer file) (file_name file)
                     (file_type file)), w3))
  /\ (forall err w',
        openSealFile sealFile userEmail skenc w = (Throw err, w') ->
        (err = Error "You are not a recipient of this file"
         /\ List.find (same_email userEmail) (recipients sealFile) = None)
        \/ primitive_failure err).
Proof.
  split; [|split; [|split]].
  - reflexivity.
  - intros t. apply openSealFile_clock_free.
  - intros. eapply seal_then_open; eauto.
  - intros err w' H. apply openSealFile_throw in H as [(? & ? & _)|]; auto.
Qed.

Lemma expiredAt_string {L : PlatformLaws P} seal s T now :
  metadata seal !! "expiresAt" = Some (JStr s) ->
  date_parse s = Some T ->
  expiredAt seal now = if (now >? T)%Z then Some T else None.
Proof.
  intros Hmd Hs. unfold expiredAt. rewrite Hmd. cbn.
  destruct (String.eqb_spec s "") as [->|_].
  - rewrite date_parse_empty in Hs. discriminate.
  - cbn. now rewrite Hs.
Qed.

Lemma handleFileLoaded_expired lib ue seal st w T :
  expiredAt seal (clock w) = Some T ->
  handleFileLoaded lib ue seal st w =
  (setStep error (setError (expired_error T) (setStep validating (setSealFile seal st))),
   w).
Proof. intros H. unfold handleFileLoaded. now rewrite H. Qed.

Lemma handleFileLoaded_valid lib ue seal st w :
  expiredAt seal (clock w) = None ->
  callerEmail ue w <> "" ->
  existsb (same_email (callerEmail ue w)) (recipients seal) = true ->
  handleFileLoaded lib ue seal st w =
  decryptStep lib seal (callerEmail ue w)
    (setStep decrypting (setStep validating (setSealFile seal st))) w.
Proof.
  intros Hexp Hne Hex. unfold handleFileLoaded. rewrite Hexp, Hex.
  destruct (String.eqb_spec (callerEmail ue w) ""); [contradiction | reflexivity].
Qed.

(** C3. Expiry is checked before authorization: when [expiresAt] is a date
    before the current time, [handleFileLoaded] ends in the error "File
    expired" (icon [expired]) whoever the caller is and whatever the
    recipients of the envelope are; the browser is left as it was, and the
    imported [openSealFile] plays no part. *)
Theorem expiry_before_authorization {L : PlatformLaws P} lib ue seal st w s T :
  metadata seal !! "expiresAt" = Some (JStr s) ->
  date_parse s = Some T ->
  (T < clock w)%Z ->
  handleFileLoaded lib ue seal st w =
  (setStep error (setError (expired_error T) (setStep validating (setSealFile seal st))),
   w)
  /\ icon (expired_error T) = expired.
Proof.
  intros Hmd Hs Hlt. split; [|reflexivity].
  apply handleFileLoaded_expired.
  rewrite (expiredAt_string seal s T (clock w) Hmd Hs).
  destruct (Z.gtb_spec (clock w) T); [reflexivity | lia].
Qed.

(** C7. Expiry boundary. For an envelope whose [expiresAt] is the date [T]:
    the file has expired exactly when the current time is greater than [T];
    so at [T + 1] the viewer ends in the error "File expired", while at
    [T - 1] and at [T] itself an authorized caller passes validation and
    the viewer goes on to decryption. An envelope without [expiresAt] has
    expired at no time. *)
Theorem expiry_boundary {L : PlatformLaws P} lib ue seal st w :
  (forall s T,
     metadata seal !! "expiresAt" = Some (JStr s) ->
     date_parse s = Some T ->
     (forall now, expiredAt seal now = if (now >? T)%Z then Some T else None)
     /\ (clock w = (T + 1)%Z ->
         handleFileLoaded lib ue seal st w =
         (setStep error
            (setError (expired_error T) (setStep validating (setSealFile seal st))),
          w))
     /\ (clock w = (T - 1)%Z \/ clock w = T ->
         callerEmail ue w <> "" ->
         existsb (same_email (callerEmail ue w)) (recipients seal) = true ->
         handleFileLoaded lib ue seal st w =
         decryptStep lib seal (callerEmail ue w)
           (setStep decrypting (setStep validating (setSealFile seal st))) w))
  /\ (metadata seal !! "expiresAt" = None ->
      forall now, expiredAt seal now = None).
Proof.
  split.
  - intros s T Hmd Hs.
    pose proof (expiredAt_string seal s T) as HE.
    split; [intros now; now apply HE|]. split.
    + intros Hc. apply handleFileLoaded_expired. rewrite (HE _ Hmd Hs), Hc.
      destruct (Z.gtb_spec (T + 1) T); [reflexivity | lia].
    + intros Hc Hne Hex. apply handleFileLoaded_valid; [|assumption..].
      rewrite (HE _ Hmd Hs).
      destruct (Z.gtb_spec (clock w) T); [lia | reflexivity].
  - intros Hmd now. unfold expiredAt. now rewrite Hmd.
Qed.

(** C5 (as amended). Neither [handleFileLoaded] nor [openSealFile] makes a
    structural check. The version of the envelope is never read: with
    another version, [openSealFile] returns and the page shows the same.
    An envelope without recipients is not reported as malformed: a caller
    who is logged in gets the error "Not authorized" once the expiry check
    has passed, and [openSealFile] throws the error of a caller who is no
    recipient. *)
Theorem no_structural_validation ue seal st w v :
  (forall userEmail skenc,
     openSealFile (setVersion v seal) userEmail skenc w
     = openSealFile seal userEmail skenc w)
  /\ view (handleFileLoaded openSealFile ue (setVersion v seal) st w)
     = view (handleFileLoaded openSealFile ue seal st w)
  /\ (recipients seal = [] ->
      (forall userEmail skenc,
         openSealFile seal userEmail skenc w
         = (Throw (Error "You are not a recipient of this file"), w))
      /\ (forall lib,
           expiredAt seal (clock w) = None ->
           callerEmail ue w <> "" ->
           handleFileLoaded lib ue seal st w =
           (setStep error
              (setError (not_authorized_error (callerEmail ue w))
                 (setStep validating (setSealFile seal st))), w))).
Proof.
  split; [reflexivity|]. split.
  - unfold handleFileLoaded.
    change (expiredAt (setVersion v seal) (clock w)) with (expiredAt seal (clock w)).
    destruct (expiredAt seal (clock w)); [reflexivity|].
    destruct (String.eqb (callerEmail ue w) ""); [reflexivity|].
    change (recipients (setVersion v seal)) with (recipients seal).
    destruct (negb _); [reflexivity|].
    unfold decryptStep.
    destruct (localStorage w !! "seal_private_key") as [[|c k]|]; try reflexivity.
    change (openSealFile (setVersion v seal)) with (openSealFile seal).
    destruct (openSealFile seal (callerEmail ue w) (String c k) w) as [[d|err] w'];
      reflexivity.
  - intros HR. split.
    + intros userEmail skenc. unfold openSealFile. now rewrite HR.
    + intros lib Hexp Hne. unfold handleFileLoaded. rewrite Hexp, HR.
      destruct (String.eqb_spec (callerEmail ue w) ""); [contradiction | reflexivity].
Qed.

End Claims.

(* ===================================================================== *)
(** ** The claims in the scenario *)
(* ===================================================================== *)

Lemma strip_prefix_app (p l : list byte) :
  Symbolic.strip_prefix p (p ++ l) = Some l.
Proof.
  induction p as [|a p IH]; [reflexivity|].
  cbn [Symbolic.strip_prefix app].
  now rewrite (Byte.byte_dec_lb (x:=a) (y:=a) eq_refl).
Qed.

(** The symbolic browser obeys the laws. *)
Lemma symbolic_laws : PlatformLaws Symbolic.platform.
Proof.
  constructor.
  - intros k iv m. cbn. now rewrite app_assoc, strip_prefix_app.
  - reflexivity.
  - reflexivity.
Qed.

(** The key pair of identity [id]. *)
Lemma matching_same (id : list byte) : matching (P := Symbolic.platform) id id.
Proof.
  intros m g c g' H. cbn in H. injection H as <- _. apply strip_prefix_app.
Qed.

Lemma wraps_any (pk : list byte) : wraps (P := Symbolic.platform) pk.
Proof. intros k g. cbn. eauto. Qed.

#[local] Existing Instance Symbolic.platform.

Lemma validKey_public_of (id : list byte) :
  validKey (importKey_spki (Platform := Symbolic.platform)) (Symbolic.public_of id)
  = Some id.
Proof.
  unfold validKey, Symbolic.public_of, arrayBufferToBase64.
  rewrite atob_btoa. cbn [mbind option_bind].
  now rewrite charCodes_fromCharCodes.
Qed.

Lemma validKey_private_of (id : list byte) :
  validKey (importKey_pkcs8 (Platform := Symbolic.platform)) (Symbolic.private_of id)
  = Some id.
Proof.
  unfold validKey, Symbolic.private_of, arrayBufferToBase64.
  rewrite atob_btoa. cbn [mbind option_bind].
  now rewrite charCodes_fromCharCodes.
Qed.

Lemma valid_recipient_public_of (address : string) (id : list byte) :
  valid_recipient (P := Symbolic.platform)
    (mkRecipient address (Symbolic.public_of id)).
Proof.
  exists id. split; [apply validKey_public_of | apply wraps_any].
Qed.

(** In the scenario, [bob] opens what was sealed for [alice] and [bob]. *)
Lemma round_trip_witness :
  exists e w1,
    createSealFile Symbolic.ten_bytes [Symbolic.alice; Symbolic.bob] "file-1" ∅
      Symbolic.world0 = (Return e, w1) /\
    exists w3,
      openSealFile e "b@x.com" (Symbolic.private_of Symbolic.key_b) w1 =
      (Return (mkDecrypted (file_arrayBuffer Symbolic.ten_bytes) "a.txt" "text/plain"),
       w3).
Proof.
  destruct (round_trip (L := symbolic_laws) Symbolic.ten_bytes
              [Symbolic.alice; Symbolic.bob] "file-1" ∅ Symbolic.world0)
    as [(e & w1 & Hc & Ho) _].
  { repeat constructor; apply valid_recipient_public_of. }
  exists e, w1. split; [exact Hc|].
  apply (Ho Symbolic.bob _ Symbolic.key_b w1).
  - right; left; reflexivity.
  - apply validKey_private_of.
  - intros r0 [= <-]. exists Symbolic.key_b.
    split; [apply validKey_public_of | apply matching_same].
Defined.

(** C1 as stated fails on a list with two entries for one address under
    different keys: every entry carries a valid public-key encoding, the
    second recipient holds the private key matching their own public key, and
    yet opening with it throws, because [find] returns the first entry. *)
Lemma round_trip_counterexample :
  Forall (valid_recipient (P := Symbolic.platform))
    [Symbolic.alice; Symbolic.alice_again] /\
  validKey (importKey_spki (Platform := Symbolic.platform))
    (recipient_publicKey Symbolic.alice_again) = Some Symbolic.key_b /\
  validKey (importKey_pkcs8 (Platform := Symbolic.platform))
    (Symbolic.private_of Symbolic.key_b) = Some Symbolic.key_b /\
  matching (P := Symbolic.platform) Symbolic.key_b Symbolic.key_b /\
  exists e w1,
    createSealFile Symbolic.ten_bytes [Symbolic.alice; Symbolic.alice_again]
      "file-1" ∅ Symbolic.world0 = (Return e, w1) /\
    openSealFile e (recipient_email Symbolic.alice_again)
      (Symbolic.private_of Symbolic.key_b) w1
    = (Throw (DOMException "OperationError"),
       logged (Decrypt RSA_OAEP) (logged (ImportKey pkcs8) w1)).
Proof.
  split; [repeat constructor; apply valid_recipient_public_of|].
  split; [apply validKey_public_of|].
  split; [apply validKey_private_of|].
  split; [apply matching_same|].
  eexists _, _. split; reflexivity.
Qed.

(** [toLowerCase] on the addresses of the scenario. *)
Example toLowerCase_values :
  toLowerCase "A@X.com" = "a@x.com" /\ toLowerCase "a@x.com" = "a@x.com"
  /\ toLowerCase "c@x.com" <> toLowerCase "a@x.com".
Proof. split; [reflexivity|]. split; [reflexivity | discriminate]. Qed.

(** Sealing in the scenario gives [envelope0]. *)
Lemma sealed0 :
  createSealFile Symbolic.ten_bytes [Symbolic.alice; Symbolic.bob] "file-1"
    Symbolic.metadata0 Symbolic.world0
  = (Return Symbolic.envelope0, Symbolic.world1).
Proof. reflexivity. Qed.

(** In the scenario, the caller "A@X.com" opens the envelope with the key of
    [alice]; the caller "c@x.com" is turned away by [openSealFile] and by
    the viewer, and the browser is left as it was. *)
Lemma authorization_lookup_witness :
  (exists w3,
     openSealFile Symbolic.envelope0 "A@X.com" (Symbolic.private_of Symbolic.key_a)
       Symbolic.world1
     = (Return (mkDecrypted (file_arrayBuffer Symbolic.ten_bytes) "a.txt" "text/plain"),
        w3))
  /\ openSealFile Symbolic.envelope0 "c@x.com" (Symbolic.private_of Symbolic.key_a)
       Symbolic.world1
     = (Throw (Error "You are not a recipient of this file"), Symbolic.world1)
  /\ handleFileLoaded openSealFile (Some "c@x.com") Symbolic.envelope0
       Symbolic.initial (Symbolic.browser 2000 (Symbolic.private_of Symbolic.key_a))
     = (setStep error
          (setError (not_authorized_error "c@x.com")
             (setStep validating (setSealFile Symbolic.envelope0 Symbolic.initial))),
        Symbolic.browser 2000 (Symbolic.private_of Symbolic.key_a)).
Proof.
  assert (Hno : forall r, In r (recipients Symbolic.envelope0) ->
                          toLowerCase (email r) <> toLowerCase "c@x.com")
    by (intros r [<-|[<-|[]]]; discriminate).
  split; [|split].
  - apply (proj1 (proj2 (authorization_lookup (L := symbolic_laws)
             Symbolic.envelope0 "A@X.com" (Symbolic.private_of Symbolic.key_a)
             Symbolic.world1))
           Symbolic.ten_bytes [Symbolic.alice; Symbolic.bob] "file-1"
           Symbolic.metadata0 Symbolic.world0 Symbolic.world1 Symbolic.alice
           Symbolic.key_a Symbolic.key_a).
    + exact sealed0.
    + reflexivity.
    + apply validKey_public_of.
    + apply matching_same.
    + apply validKey_private_of.
  - apply (proj2 (proj2 (authorization_lookup (L := symbolic_laws)
             Symbolic.envelope0 "c@x.com" (Symbolic.private_of Symbolic.key_a)
             Symbolic.world1))). exact Hno.
  - destruct (proj2 (proj2 (authorization_lookup (L := symbolic_laws)
                Symbolic.envelope0 "c@x.com" (Symbolic.private_of Symbolic.key_a)
                (Symbolic.browser 2000 (Symbolic.private_of Symbolic.key_a)))) Hno)
      as [_ Hv].
    destruct (Hv openSealFile (Some "c@x.com") Symbolic.initial eq_refl eq_refl)
      as (err & Hh & _ & He).
    rewrite Hh, He; [reflexivity | discriminate].
Defined.

(** In the scenario the envelope expires at 5000; at 6000 the caller
    "c@x.com", who is no recipient, is told that the file has expired. *)
Lemma expiry_before_authorization_witness :
  existsb (same_email "c@x.com") (recipients Symbolic.envelope0) = false
  /\ handleFileLoaded openSealFile (Some "c@x.com") Symbolic.envelope0
       Symbolic.initial (Symbolic.browser 6000 (Symbolic.private_of Symbolic.key_a))
     = (setStep error
          (setError (expired_error 5000)
             (setStep validating (setSealFile Symbolic.envelope0 Symbolic.initial))),
        Symbolic.browser 6000 (Symbolic.private_of Symbolic.key_a))
  /\ icon (expired_error (P := Symbolic.platform) 5000) = expired.
Proof.
  split; [reflexivity|].
  apply (expiry_before_authorization (L := symbolic_laws) openSealFile
           (Some "c@x.com") Symbolic.envelope0 Symbolic.initial
           (Symbolic.browser 6000 (Symbolic.private_of Symbolic.key_a))
           "5000" 5000); reflexivity.
Defined.

(** Sealing for [alice] and [mallory], whose key text is no base64, throws. *)
Lemma all_or_nothing_witness :
  exists err w',
    createSealFile Symbolic.ten_bytes [Symbolic.alice; Symbolic.mallory] "file-1" ∅
      Symbolic.world0 = (Throw err, w') /\ primitive_failure err.
Proof.
  apply (proj1 (all_or_nothing (P := Symbolic.platform) Symbolic.ten_bytes
                  [Symbolic.alice; Symbolic.mallory] "file-1" ∅ Symbolic.world0)).
  right. left. exact I.
Defined.

(** C5 as stated fails: an envelope of version 2 passes validation and is
    decrypted and shown, and an envelope without recipients is answered
    with "Not authorized" rather than with an error of the format. *)
Lemma no_structural_validation_counterexample :
  view (handleFileLoaded openSealFile (Some "a@x.com")
          (setVersion 2 Symbolic.envelope0) Symbolic.initial
          (Symbolic.browser 2000 (Symbolic.private_of Symbolic.key_a)))
  = (viewing,
     Some (mkDecrypted (file_arrayBuffer Symbolic.ten_bytes) "a.txt" "text/plain"),
     None,
     mkWorld 2000 0%nat (<["seal_private_key" := Symbolic.private_of Symbolic.key_a]> ∅)
       [ImportKey pkcs8; Decrypt RSA_OAEP; ImportKey raw; Decrypt AES_GCM])
  /\ (handleFileLoaded openSealFile (Some "a@x.com")
        (setRecipients [] Symbolic.envelope0) Symbolic.initial
        (Symbolic.browser 2000 (Symbolic.private_of Symbolic.key_a))).1
     = mkViewer error (Some (setRecipients [] Symbolic.envelope0)) None
         (Some (mkViewerError "Not authorized"
                  "You (a@x.com) are not a recipient of this file. Only the listed recipients can decrypt it."
                  unauthorized)).
Proof. split; reflexivity. Qed.

(** C6 as stated fails: sealing for no recipient returns an envelope. *)
Lemma empty_recipients_counterexample :
  (createSealFile Symbolic.ten_bytes [] "file-1" ∅ Symbolic.world0).1
  = Return (mkSealFile 1 "file-1" "a.txt" "text/plain" 10
      "BwcHBwcHBwcHBwcHBwcHBwcHBwcHBwcHBwcHBwcHBwcICAgICAgICAgICAgBAgMEBQYHCAkK"
      "CAgICAgICAgICAgI" [] (<["createdAt" := JStr "1000"]> ∅)).
Proof. reflexivity. Qed.

(** In the scenario the envelope expires at 5000: at 5001 the viewer reports
    it expired, at 4999 and at 5000 the recipient "a@x.com" sees the file. *)
Lemma expiry_boundary_witness :
  (handleFileLoaded openSealFile (Some "a@x.com") Symbolic.envelope0
     Symbolic.initial (Symbolic.browser 5001 (Symbolic.private_of Symbolic.key_a))).1
  = setStep error
      (setError (expired_error 5000)
         (setStep validating (setSealFile Symbolic.envelope0 Symbolic.initial)))
  /\ step (handleFileLoaded openSealFile (Some "a@x.com") Symbolic.envelope0
             Symbolic.initial
             (Symbolic.browser 4999 (Symbolic.private_of Symbolic.key_a))).1
     = viewing
  /\ step (handleFileLoaded openSealFile (Some "a@x.com") Symbolic.envelope0
             Symbolic.initial
             (Symbolic.browser 5000 (Symbolic.private_of Symbolic.key_a))).1
     = viewing.
Proof.
  pose proof (fun t => proj1 (expiry_boundary (L := symbolic_laws) openSealFile
                (Some "a@x.com") Symbolic.envelope0 Symbolic.initial
                (Symbolic.browser t (Symbolic.private_of Symbolic.key_a)))
                "5000" 5000%Z eq_refl eq_refl) as H.
  split; [|split].
  - destruct (H 5001%Z) as (_ & H1 & _). rewrite H1; reflexivity.
  - destruct (H 4999%Z) as (_ & _ & H2).
    rewrite H2; [reflexivity | now left | discriminate | reflexivity].
  - destruct (H 5000%Z) as (_ & _ & H2).
    rewrite H2; [reflexivity | now right | discriminate | reflexivity].
Defined.

(** A text that is no base64 and a text whose bytes are no key are both
    rejected; the encoding of a key is imported. *)
Lemma key_import_failure_witness :
  importPublicKey (P := Symbolic.platform) "not base64!" Symbolic.world0
  = (Throw (DOMException "InvalidCharacterError"), Symbolic.world0)
  /\ importPrivateKey (P := Symbolic.platform) "AAAA" Symbolic.world0
     = (Throw (DOMException "DataError"), logged (ImportKey pkcs8) Symbolic.world0)
  /\ validKey (importKey_spki (Platform := Symbolic.platform))
       (Symbolic.public_of Symbolic.key_a) = Some Symbolic.key_a.
Proof.
  split; [|split].
  - apply (proj1 (key_import_failure (P := Symbolic.platform) "not base64!"
                    Symbolic.world0)). reflexivity.
  - apply (proj1 (proj2 (proj2 (key_import_failure (P := Symbolic.platform) "AAAA"
                                  Symbolic.world0))) (String zero (String zero (String zero "")))); reflexivity.
  - apply (proj1 (proj2 (proj2 (proj2 (key_import_failure (P := Symbolic.platform)
             (Symbolic.public_of Symbolic.key_a) Symbolic.world0)))) Symbolic.key_a
             (logged (ImportKey spki) Symbolic.world0)).
    reflexivity.
Defined.

(** In the scenario the envelope has expired at 9999, and [openSealFile]
    still opens it for [bob]. *)
Lemma open_ignores_expiry_witness :
  expiredAt Symbolic.envelope0 9999 = Some 5000%Z
  /\ exists w3,
       openSealFile Symbolic.envelope0 "b@x.com" (Symbolic.private_of Symbolic.key_b)
         (Symbolic.browser 9999 "")
       = (Return (mkDecrypted (file_arrayBuffer Symbolic.ten_bytes) "a.txt"
                    "text/plain"), w3).
Proof.
  split; [reflexivity|].
  apply (proj1 (proj2 (proj2 (open_ignores_expiry (L := symbolic_laws)
             Symbolic.envelope0 "b@x.com" (Symbolic.private_of Symbolic.key_b)
             (Symbolic.browser 9999 ""))))
           Symbolic.ten_bytes [Symbolic.alice; Symbolic.bob] "file-1"
           Symbolic.metadata0 Symbolic.world0 Symbolic.world1 Symbolic.bob
           Symbolic.key_b Symbolic.key_b 5000%Z).
  - exact sealed0.
  - reflexivity.
  - apply validKey_public_of.
  - apply matching_same.
  - apply validKey_private_of.
  - reflexivity.
Defined.

(** In the scenario the caller's [createdAt] is replaced by the time of the
    build, and [expiresAt] and [note] are kept. *)
Lemma metadata_preserved_witness :
  Symbolic.metadata0 !! "createdAt" = Some (JStr "1")
  /\ metadata Symbolic.envelope0 !! "createdAt" = Some (JStr "1000")
  /\ metadata Symbolic.envelope0 !! "expiresAt" = Some (JStr "5000")
  /\ metadata Symbolic.envelope0 !! "note" = Some (JBool true)
  /\ metadata Symbolic.envelope0 !! "other" = None.
Proof.
  destruct (metadata_preserved (P := Symbolic.platform) _ _ _ _ _ _ _ sealed0)
    as [Hc Hk].
  split; [reflexivity|]. split; [exact Hc|].
  split; [|split]; rewrite Hk; try discriminate; reflexivity.
Defined.

(* ===================================================================== *)
(** ** Further properties of seal-crypto.js *)
(* ===================================================================== *)

Section Library.
Context {P : Platform}.

(** [openSealFile] for a caller whose entry is found, stage by stage. *)
Lemma openSealFile_run sealFile userEmail skenc w entry :
  List.find (same_email userEmail) (recipients sealFile) = Some entry ->
  openSealFile sealFile userEmail skenc w =
  match Base64.atob skenc with
  | None => (Throw (DOMException "InvalidCharacterError"), w)
  | Some b1 =>
  let w1 := logged (ImportKey pkcs8) w in
  match importKey_pkcs8 (charCodes b1) with
  | None => (Throw (DOMException "DataError"), w1)
  | Some sk =>
  match Base64.atob (encryptedKey entry) with
  | None => (Throw (DOMException "InvalidCharacterError"), w1)
  | Some b2 =>
  let w2 := logged (Decrypt RSA_OAEP) w1 in
  match decrypt_rsa sk (charCodes b2) with
  | None => (Throw (DOMException "OperationError"), w2)
  | Some rawKey =>
  let w3 := logged (ImportKey raw) w2 in
  match importKey_raw rawKey with
  | None => (Throw (DOMException "DataError"), w3)
  | Some k =>
  match Base64.atob (encryptedData sealFile) with
  | None => (Throw (DOMException "InvalidCharacterError"), w3)
  | Some b3 =>
  match Base64.atob (iv sealFile) with
  | None => (Throw (DOMException "InvalidCharacterError"), w3)
  | Some b4 =>
  (match decrypt_aes k (charCodes b4) (charCodes b3) with
   | Some d => Return (mkDecrypted d (fileName sealFile) (fileType sealFile))
   | None => Throw (DOMException "OperationError")
   end, logged (Decrypt AES_GCM) w3)
  end end end end end end end.
Proof.
  intros Hfind. unfold openSealFile. rewrite Hfind.
  unfold importPrivateKey, base64ToArrayBuffer, decryptKeyForRecipient, decryptFile.
  js_unfold.
  destruct (Base64.atob skenc) as [b1|]; [|reflexivity].
  destruct (importKey_pkcs8 (charCodes b1)) as [sk|]; [|reflexivity].
  destruct (Base64.atob (encryptedKey entry)) as [b2|]; [|reflexivity].
  cbn. destruct (decrypt_rsa sk (charCodes b2)) as [rawKey|]; [|reflexivity].
  destruct (importKey_raw rawKey) as [k|]; [|reflexivity].
  destruct (Base64.atob (encryptedData sealFile)) as [b3|]; [|reflexivity].
  destruct (Base64.atob (iv sealFile)) as [b4|]; [|reflexivity].
  now destruct (decrypt_aes k (charCodes b4) (charCodes b3)).
Qed.

Lemma base64Bytes_arrayBufferToBase64 (buffer : list byte) :
  base64Bytes (arrayBufferToBase64 buffer) = Some buffer.
Proof.
  unfold base64Bytes, arrayBufferToBase64. rewrite atob_btoa. cbn.
  now rewrite charCodes_fromCharCodes.
Qed.

Lemma charCodes_length (s : string) : length (charCodes s) = String.length s.
Proof. induction s as [|c s IH]; cbn; [reflexivity | now rewrite IH]. Qed.

Lemma string_of_list_ascii_length (l : list ascii) :
  String.length (string_of_list_ascii l) = length l.
Proof. induction l as [|c l IH]; cbn; [reflexivity | now rewrite IH]. Qed.

Lemma list_ascii_of_string_length (s : string) :
  length (list_ascii_of_string s) = String.length s.
Proof. induction s as [|c s IH]; cbn; [reflexivity | now rewrite IH]. Qed.

Lemma encode_total_length (bs : list ascii) :
  length (Base64.encode bs) = 4 * ((length bs + 2) / 3).
Proof.
  induction bs as [|x|x y|x y z l IH] using list_ind3.
  - reflexivity.
  - destruct x; reflexivity.
  - destruct x, y; reflexivity.
  - rewrite encode_step. destruct (Base64.split3 x y z) as [[[p q] r] s].
    cbn [length]. rewrite IH.
    replace (S (S (S (length l))) + 2) with (1 * 3 + (length l + 2)) by lia.
    rewrite Nat.div_add_l by discriminate. lia.
Qed.

(** X1. Decoding the base64 text of a buffer gives the buffer back, without
    an exception and without a call into [crypto]; so two buffers with the
    same text are equal. *)
Theorem buffer_base64_round_trip (buffer : list byte) (w : World) :
  base64ToArrayBuffer (arrayBufferToBase64 buffer) w = (Return buffer, w)
  /\ forall other,
      arrayBufferToBase64 other = arrayBufferToBase64 buffer -> other = buffer.
Proof.
  split; [apply base64ToArrayBuffer_arrayBufferToBase64|].
  intros other H.
  pose proof (base64Bytes_arrayBufferToBase64 other) as Ho.
  rewrite H, base64Bytes_arrayBufferToBase64 in Ho. now injection Ho.
Qed.

(** X2. The base64 text of a buffer of [n] bytes has [4 * ceil(n / 3)]
    characters. *)
Theorem arrayBufferToBase64_length (buffer : list byte) :
  String.length (arrayBufferToBase64 buffer) = 4 * ((length buffer + 2) / 3).
Proof.
  unfold arrayBufferToBase64, Base64.btoa.
  rewrite string_of_list_ascii_length, encode_total_length.
  rewrite list_ascii_of_string_length, <- charCodes_length.
  now rewrite charCodes_fromCharCodes.
Qed.

(** X3. What [encryptFile] returns, [decryptFile] turns back into the file
    data under the same key; the iv is twelve bytes asked of the random
    generator of the browser. *)
Theorem file_encryption_round_trip {L : PlatformLaws P} fileData aesKey w :
  exists encrypted ivb w1,
    encryptFile fileData aesKey w = (Return (encrypted, ivb), w1)
    /\ getRandomValues 12 (random w) = (ivb, random w1)
    /\ forall w2,
        decryptFile encrypted aesKey ivb w2
        = (Return fileData, logged (Decrypt AES_GCM) w2).
Proof.
  unfold encryptFile, decryptFile. js_unfold. cbn.
  destruct (getRandomValues 12 (random w)) as [ivb g] eqn:E. cbn.
  eexists _, _, _. split; [reflexivity|]. split; [reflexivity|].
  intros w2. now rewrite decrypt_encrypt_aes.
Qed.

(** X4. A file key wrapped for a recipient by [encryptKeyForRecipient] is
    recovered by [decryptKeyForRecipient] under the matching private key. *)
Theorem key_wrap_round_trip {L : PlatformLaws P} aesKey pk sk w wrappedKey w1 :
  matching pk sk ->
  encryptKeyForRecipient aesKey pk w = (Return wrappedKey, w1) ->
  forall w2,
    decryptKeyForRecipient wrappedKey sk w2
    = (Return aesKey, logged (ImportKey raw) (logged (Decrypt RSA_OAEP) w2)).
Proof.
  intros Hm. unfold encryptKeyForRecipient, decryptKeyForRecipient. js_unfold. cbn.
  destruct (encrypt_rsa pk (exportKey_raw aesKey) (random w)) as [[c|] g] eqn:E;
    [|discriminate].
  intros [= <- _] w2. rewrite (Hm _ _ _ _ E). cbn.
  now rewrite importKey_exportKey_raw.
Qed.

Lemma wrapOne_effects k r w o w' :
  wrapOne k r w = (o, w') ->
  clock w' = clock w /\ localStorage w' = localStorage w /\
  exists added,
    calls w' = calls w ++ added
    /\ Forall (fun c => is_decrypt c = false) added
    /\ (forall e, o = Return e ->
        added = [ImportKey spki; ExportKey raw; Encrypt RSA_OAEP]).
Proof.
  unfold wrapOne, importPublicKey, encryptKeyForRecipient. js_unfold.
  destruct (Base64.atob (recipient_publicKey r)) as [binary|].
  - destruct (importKey_spki (charCodes binary)) as [pk|].
    + cbn. destruct (encrypt_rsa pk (exportKey_raw k) (random w)) as [[c|] g];
        intros [= <- <-]; cbn; (split; [reflexivity|]); (split; [reflexivity|]);
        exists [ImportKey spki; ExportKey raw; Encrypt RSA_OAEP];
        rewrite <- !app_assoc; repeat split; auto; discriminate.
    + intros [= <- <-]. cbn. split; [reflexivity|]. split; [reflexivity|].
      exists [ImportKey spki]. repeat split; auto; discriminate.
  - intros [= <- <-]. split; [reflexivity|]. split; [reflexivity|].
    exists []. rewrite app_nil_r. repeat split; auto; discriminate.
Qed.

Lemma wrapForRecipients_effects k R acc w o w' :
  wrapForRecipients k R acc w = (o, w') ->
  clock w' = clock w /\ localStorage w' = localStorage w /\
  exists added,
    calls w' = calls w ++ added
    /\ Forall (fun c => is_decrypt c = false) added
    /\ (forall l, o = Return l ->
        added = List.flat_map
                  (fun _ => [ImportKey spki; ExportKey raw; Encrypt RSA_OAEP]) R).
Proof.
  revert acc w. induction R as [|r R IH]; intros acc w.
  - intros [= <- <-]. split; [reflexivity|]. split; [reflexivity|].
    exists []. rewrite app_nil_r. repeat split; auto.
  - rewrite wrapForRecipients_cons.
    destruct (wrapOne k r w) as [[e|err] w1] eqn:E;
      apply wrapOne_effects in E as (Hc & Hl & a1 & Ha1 & Hf1 & Hr1).
    + intros H. apply IH in H as (Hc2 & Hl2 & a2 & Ha2 & Hf2 & Hr2).
      split; [congruence|]. split; [congruence|].
      exists (a1 ++ a2). rewrite Ha2, Ha1, <- app_assoc.
      split; [reflexivity|]. split; [now apply Forall_app|].
      intros l ->. cbn [List.flat_map]. now rewrite (Hr1 e eq_refl), (Hr2 l eq_refl).
    + intros [= <- <-]. split; [exact Hc|]. split; [exact Hl|].
      exists a1. split; [exact Ha1|]. split; [exact Hf1 | discriminate].
Qed.

(** X5. What [createSealFile] does to the browser: however it ends, it
    leaves the clock and the local storage alone and decrypts nothing; when
    it returns, its calls into [crypto] are one key generation, one request
    for twelve random bytes and one AES-GCM encryption, then for each
    recipient, in order, one key import, one raw export and one RSA-OAEP
    encryption. *)
Theorem createSealFile_effects file R fileId md w o w' :
  createSealFile file R fileId md w = (o, w') ->
  clock w' = clock w /\ localStorage w' = localStorage w /\
  exists added,
    calls w' = calls w ++ added
    /\ Forall (fun c => is_decrypt c = false) added
    /\ (forall e, o = Return e ->
        added = [GenerateKey AES_GCM; GetRandomValues 12; Encrypt AES_GCM]
                ++ List.flat_map
                     (fun _ => [ImportKey spki; ExportKey raw; Encrypt RSA_OAEP]) R).
Proof.
  rewrite createSealFile_run.
  destruct (generateKey_aes (random w)) as [k g1].
  destruct (getRandomValues 12 g1) as [ivb g2]. cbv zeta.
  match goal with |- context [wrapForRecipients k R [] ?w1] =>
    destruct (wrapForRecipients k R [] w1) as [[l|err] w2] eqn:E end;
    apply wrapForRecipients_effects in E as (Hc & Hl & a & Ha & Hf & Hr);
    cbn in Hc, Hl, Ha; intros [= <- <-];
    (split; [exact Hc|]); (split; [exact Hl|]);
    exists ([GenerateKey AES_GCM; GetRandomValues 12; Encrypt AES_GCM] ++ a);
    rewrite Ha, <- !app_assoc; (split; [reflexivity|]);
    (split; [repeat constructor; exact Hf|]).
  - intros e _. now rewrite (Hr l eq_refl).
  - discriminate.
Qed.

(** X6. The envelope [createSealFile] returns: version 1, the file id,
    name, type and size as they were passed; the key is the first thing
    drawn from the random generator and the iv the twelve bytes drawn next;
    [encryptedData] and [iv] are the base64 texts of the AES-GCM encryption
    of the file under that key and iv, and of the iv; and the entries are
    the key wrapped for the recipients, one for one. *)
Theorem createSealFile_envelope file R fid md w e w' :
  createSealFile file R fid md w = (Return e, w') ->
  exists k g1 ivb g2,
    generateKey_aes (random w) = (k, g1)
    /\ getRandomValues 12 g1 = (ivb, g2)
    /\ version e = 1%Z
    /\ fileId e = fid
    /\ fileName e = file_name file
    /\ fileType e = file_type file
    /\ fileSize e = file_size file
    /\ base64Bytes (encryptedData e) = Some (encrypt_aes k ivb (file_arrayBuffer file))
    /\ base64Bytes (iv e) = Some ivb
    /\ Forall2 (wrapped k) R (recipients e).
Proof.
  rewrite createSealFile_run.
  destruct (generateKey_aes (random w)) as [k g1] eqn:Ek.
  destruct (getRandomValues 12 g1) as [ivb g2] eqn:Ei. cbv zeta.
  match goal with |- context [wrapForRecipients k R [] ?w1] =>
    destruct (wrapForRecipients k R [] w1) as [[l|err] w2] eqn:E end;
    [|discriminate].
  apply wrapForRecipients_return in E as [(es & -> & HF) _].
  intros [= <- <-]. exists k, g1, ivb, g2. cbn.
  rewrite !base64Bytes_arrayBufferToBase64. repeat split; auto.
Qed.

(** X7. What [openSealFile] does to the browser: however it ends, it leaves
    the clock, the random generator and the local storage alone, and its
    calls into [crypto] are an initial part of: import of the private key,
    RSA-OAEP decryption, import of the raw key, AES-GCM decryption; all
    four when it returns. It never encrypts and never generates a key. *)
Theorem openSealFile_effects sealFile userEmail skenc w o w' :
  openSealFile sealFile userEmail skenc w = (o, w') ->
  clock w' = clock w /\ random w' = random w /\ localStorage w' = localStorage w /\
  exists added rest,
    calls w' = calls w ++ added
    /\ added ++ rest
       = [ImportKey pkcs8; Decrypt RSA_OAEP; ImportKey raw; Decrypt AES_GCM]
    /\ (forall d, o = Return d -> rest = []).
Proof.
  destruct (List.find (same_email userEmail) (recipients sealFile)) as [entry|] eqn:F.
  - rewrite (openSealFile_run _ _ _ _ _ F).
    repeat match goal with
           | |- context [match ?x with Some _ => _ | None => _ end] => destruct x
           end;
      cbv zeta; intros [= <- <-]; cbn; repeat (split; [reflexivity|]);
      rewrite <- ?app_assoc; cbn [app].
    + exists [ImportKey pkcs8; Decrypt RSA_OAEP; ImportKey raw; Decrypt AES_GCM], [].
      repeat split; reflexivity.
    + exists [ImportKey pkcs8; Decrypt RSA_OAEP; ImportKey raw; Decrypt AES_GCM], [].
      repeat split; discriminate.
    + exists [ImportKey pkcs8; Decrypt RSA_OAEP; ImportKey raw], [Decrypt AES_GCM].
      repeat split; discriminate.
    + exists [ImportKey pkcs8; Decrypt RSA_OAEP; ImportKey raw], [Decrypt AES_GCM].
      repeat split; discriminate.
    + exists [ImportKey pkcs8; Decrypt RSA_OAEP; ImportKey raw], [Decrypt AES_GCM].
      repeat split; discriminate.
    + exists [ImportKey pkcs8; Decrypt RSA_OAEP], [ImportKey raw; Decrypt AES_GCM].
      repeat split; discriminate.
    + exists [ImportKey pkcs8], [Decrypt RSA_OAEP; ImportKey raw; Decrypt AES_GCM].
      repeat split; discriminate.
    + exists [ImportKey pkcs8], [Decrypt RSA_OAEP; ImportKey raw; Decrypt AES_GCM].
      repeat split; discriminate.
    + exists [], [ImportKey pkcs8; Decrypt RSA_OAEP; ImportKey raw; Decrypt AES_GCM].
      rewrite app_nil_r. repeat split; discriminate.
  - unfold openSealFile. rewrite F. intros [= <- <-].
    repeat (split; [reflexivity|]).
    exists [], [ImportKey pkcs8; Decrypt RSA_OAEP; ImportKey raw; Decrypt AES_GCM].
    rewrite app_nil_r. repeat split; discriminate.
Qed.

(** X8. A listed caller whose private-key text is no base64, or whose bytes
    are no PKCS#8 key, is rejected by [openSealFile] with the exception of
    the import, before anything is decrypted. *)
Theorem bad_private_key_rejected sealFile userEmail skenc w entry :
  List.find (same_email userEmail) (recipients sealFile) = Some entry ->
  validKey importKey_pkcs8 skenc = None ->
  exists name w',
    openSealFile sealFile userEmail skenc w = (Throw (DOMException name), w')
    /\ (name = "InvalidCharacterError" /\ w' = w
        \/ name = "DataError" /\ w' = logged (ImportKey pkcs8) w).
Proof.
  intros F Hk. rewrite (openSealFile_run _ _ _ _ _ F). unfold validKey in Hk.
  destruct (Base64.atob skenc) as [b1|]; [|eauto 6].
  cbn in Hk. cbv zeta. rewrite Hk. eauto 6.
Qed.

(** X9. For a listed caller with a valid private key: when the RSA-OAEP
    decryption of the entry's wrapped key fails (the key is not the one the
    entry was wrapped for), [openSealFile] throws [OperationError] and AES-GCM
    decryption is not attempted; when the key is recovered and AES-GCM
    rejects the ciphertext under the envelope's iv, [openSealFile] throws
    [OperationError] and returns no data. *)
Theorem decryption_failure_rejected sealFile userEmail skenc w entry sk wrappedKey :
  List.find (same_email userEmail) (recipients sealFile) = Some entry ->
  validKey importKey_pkcs8 skenc = Some sk ->
  base64Bytes (encryptedKey entry) = Some wrappedKey ->
  (decrypt_rsa sk wrappedKey = None ->
   openSealFile sealFile userEmail skenc w
   = (Throw (DOMException "OperationError"),
      logged (Decrypt RSA_OAEP) (logged (ImportKey pkcs8) w)))
  /\ (forall rawKey k ciphertext ivb,
        decrypt_rsa sk wrappedKey = Some rawKey ->
        importKey_raw rawKey = Some k ->
        base64Bytes (encryptedData sealFile) = Some ciphertext ->
        base64Bytes (iv sealFile) = Some ivb ->
        decrypt_aes k ivb ciphertext = None ->
        openSealFile sealFile userEmail skenc w
        = (Throw (DOMException "OperationError"),
           logged (Decrypt AES_GCM)
             (logged (ImportKey raw)
                (logged (Decrypt RSA_OAEP) (logged (ImportKey pkcs8) w))))).
Proof.
  intros F Hk Hw. rewrite (openSealFile_run _ _ _ _ _ F).
  unfold validKey in Hk. unfold base64Bytes in *.
  destruct (Base64.atob skenc) as [b1|]; [|discriminate]. cbn in Hk.
  destruct (Base64.atob (encryptedKey entry)) as [b2|]; [|discriminate].
  cbn in Hw. injection Hw as <-. cbv zeta. rewrite Hk. split.
  - now intros ->.
  - intros rawKey k ciphertext ivb -> -> Hc Hi Hd.
    destruct (Base64.atob (encryptedData sealFile)) as [b3|]; [|discriminate].
    destruct (Base64.atob (iv sealFile)) as [b4|]; [|discriminate].
    cbn in Hc, Hi. injection Hc as <-. injection Hi as <-. now rewrite Hd.
Qed.

End Library.

(* ===================================================================== *)
(** ** Further properties of the viewer page *)
(* ===================================================================== *)

Section Page.
Context {P : Platform}.

Lemma existsb_find (l : list RecipientEntry) userEmail :
  existsb (same_email userEmail) l = true ->
  exists entry, List.find (same_email userEmail) l = Some entry.
Proof.
  induction l as [|r l IH]; [discriminate|]. cbn [existsb List.find].
  destruct (same_email userEmail r); [eauto | exact IH].
Qed.


(** X11. What the page shows after [handleFileLoaded], and the browser it
    leaves, do not depend on the state the page was in: loading a file
    without [handleReset] shows the same panel as loading it after
    [handleReset], which itself brings back the upload panel. *)
Theorem display_independent_of_previous_state lib ue parsed w st st' :
  render (handleFileLoaded lib ue parsed st w).1
  = render (handleFileLoaded lib ue parsed st' w).1
  /\ (handleFileLoaded lib ue parsed st w).2
     = (handleFileLoaded lib ue parsed st' w).2
  /\ render (handleReset st) = UploadPanel.
Proof.
  split; [|split; [|reflexivity]];
    unfold handleFileLoaded, decryptStep;
    destruct (expiredAt parsed (clock w)); try reflexivity;
    destruct (String.eqb (callerEmail ue w) ""); try reflexivity;
    destruct (negb _); try reflexivity;
    destruct (localStorage w !! "seal_private_key") as [[|c k]|]; try reflexivity;
    destruct (lib parsed (callerEmail ue w) (String c k) w) as [[d|err] w'];
    reflexivity.
Qed.

(** X12. A caller who passes validation but whose browser holds no private
    key (no [seal_private_key] in the local storage, or an empty one) gets
    the error "Private key not found"; the imported [openSealFile] is not
    called and the browser is left as it was. *)
Theorem private_key_missing lib ue seal st w :
  expiredAt seal (clock w) = None ->
  callerEmail ue w <> "" ->
  existsb (same_email (callerEmail ue w)) (recipients seal) = true ->
  or_else (localStorage w !! "seal_private_key") "" = "" ->
  handleFileLoaded lib ue seal st w =
  (setStep error
     (setError private_key_not_found_error
        (setStep decrypting (setStep validating (setSealFile seal st)))), w).
Proof.
  intros Hexp Hne Hex Hkey. rewrite handleFileLoaded_valid by assumption.
  unfold decryptStep.
  destruct (localStorage w !! "seal_private_key") as [[|c k]|];
    [reflexivity | discriminate | reflexivity].
Qed.

(** X13. The page with [openSealFile] of seal-crypto.js: once validation
    has passed and a private key is stored, the caller's entry is the one
    [openSealFile] finds, so the page either shows the file [openSealFile]
    returned, or the error "Decryption failed" for the exception of a
    browser primitive; the error of a caller who is no recipient cannot
    arise at this point. *)
Theorem viewer_decryption_outcome ue seal st w c k :
  expiredAt seal (clock w) = None ->
  callerEmail ue w <> "" ->
  existsb (same_email (callerEmail ue w)) (recipients seal) = true ->
  localStorage w !! "seal_private_key" = Some (String c k) ->
  let st1 := setStep decrypting (setStep validating (setSealFile seal st)) in
  (exists d w',
     openSealFile seal (callerEmail ue w) (String c k) w = (Return d, w')
     /\ handleFileLoaded openSealFile ue seal st w
        = (setStep viewing (setDecryptedFile d st1), w'))
  \/ (exists err w',
        openSealFile seal (callerEmail ue w) (String c k) w = (Throw err, w')
        /\ primitive_failure err
        /\ handleFileLoaded openSealFile ue seal st w
           = (setStep error (setError (decryption_failed_error err) st1), w')
        /\ title (decryption_failed_error err) = "Decryption failed"
        /\ icon (decryption_failed_error err) = generic).
Proof.
  intros Hexp Hne Hex Hkey st1. rewrite handleFileLoaded_valid by assumption.
  unfold decryptStep. rewrite Hkey.
  destruct (openSealFile seal (callerEmail ue w) (String c k) w) as [[d|err] w'] eqn:E.
  - left. eauto.
  - right. exists err, w'. split; [reflexivity|].
    apply openSealFile_throw in E as [(_ & Hnone & _)|Hp].
    + apply existsb_find in Hex as (entry & Hf). congruence.
    + repeat split; assumption.
Qed.

(** X14. From sealing to viewing: an envelope sealed by [createSealFile] for
    [R], loaded into the page of a logged-in caller whose address equals up
    to letter case that of a recipient of [R] (the first such is [r0]),
    whose stored private key matches the key of [r0], and for whom the file
    has not expired, ends in the step [viewing] with the original file
    bytes, name and type on the viewer panel. *)
Theorem seal_then_view {L : PlatformLaws P} file R fid md w0 e w1
    ue st w r0 pk0 sk c k :
  createSealFile file R fid md w0 = (Return e, w1) ->
  callerEmail ue w <> "" ->
  first_match (callerEmail ue w) R = Some r0 ->
  validKey importKey_spki (recipient_publicKey r0) = Some pk0 ->
  matching pk0 sk ->
  localStorage w !! "seal_private_key" = Some (String c k) ->
  validKey importKey_pkcs8 (String c k) = Some sk ->
  expiredAt e (clock w) = None ->
  let shown := mkDecrypted (file_arrayBuffer file) (file_name file) (file_type file) in
  exists w',
    handleFileLoaded openSealFile ue e st w =
    (setStep viewing
       (setDecryptedFile shown
          (setStep decrypting (setStep validating (setSealFile e st)))), w')
    /\ render (handleFileLoaded openSealFile ue e st w).1 = ViewingPanel shown e.
Proof.
  intros Hc Hne Hfirst Hpk Hm Hkey Hsk Hexp shown.
  destruct (seal_then_open file R fid md w0 e w1 (callerEmail ue w) r0 pk0
              (String c k) sk w Hc Hfirst Hpk Hm Hsk) as (w' & Ho).
  assert (Hex : existsb (same_email (callerEmail ue w)) (recipients e) = true).
  { destruct (existsb _ _) eqn:Hb; [reflexivity|].
    unfold openSealFile in Ho.
    assert (Hnone : List.find (same_email (callerEmail ue w)) (recipients e) = None).
    { clear Ho. induction (recipients e) as [|x l IH]; [reflexivity|].
      cbn [existsb List.find] in *.
      destruct (same_email (callerEmail ue w) x); [discriminate | now apply IH]. }
    rewrite Hnone in Ho. discriminate. }
  exists w'. rewrite handleFileLoaded_valid by assumption.
  unfold decryptStep. rewrite Hkey, Ho. split; reflexivity.
Qed.

End Page.

(* ===================================================================== *)
(** ** Key pairs: [generateKeyPair] and [exportKey] *)
(* ===================================================================== *)

Section Keys.
Context {P : Platform} {K : KeyPairs P}.

Lemma validKey_btoa {A : Type} (importer : list byte -> option A) (bytes : list byte) :
  validKey importer (Base64.btoa (fromCharCodes bytes)) = importer bytes.
Proof.
  unfold validKey. rewrite atob_btoa. cbn.
  now rewrite charCodes_fromCharCodes.
Qed.

(** X15. The text [exportKey] returns for a public key in the SPKI format
    is read back to that key by [importPublicKey], and the text it returns
    for a private key in the PKCS#8 format by [importPrivateKey], in any
    browser state. Asked for the format of the other half of the pair, or
    for the raw format, [exportKey] returns no text: the export is
    rejected, after the one call it made. *)
Theorem exported_key_imports {KL : KeyPairLaws P K} pk sk w :
  (exists text,
      exportKey (PublicCryptoKey pk) spki w = (Return text, logged (ExportKey spki) w)
      /\ forall w', importPublicKey text w' = (Return pk, logged (ImportKey spki) w'))
  /\ (exists text,
        exportKey (PrivateCryptoKey sk) pkcs8 w
        = (Return text, logged (ExportKey pkcs8) w)
        /\ forall w', importPrivateKey text w'
                      = (Return sk, logged (ImportKey pkcs8) w'))
  /\ (forall key format,
        format = raw
        \/ (format = pkcs8 /\ key = PublicCryptoKey pk)
        \/ (format = spki /\ key = PrivateCryptoKey sk) ->
        exists err, exportKey key format w = (Throw err, logged (ExportKey format) w)).
Proof.
  split; [|split].
  - eexists. split; [reflexivity|]. intros w'.
    rewrite importPublicKey_run, atob_btoa, charCodes_fromCharCodes.
    now rewrite importKey_exportKey_spki.
  - eexists. split; [reflexivity|]. intros w'.
    rewrite importPrivateKey_run, atob_btoa, charCodes_fromCharCodes.
    now rewrite importKey_exportKey_pkcs8.
  - intros key format [-> | [[-> ->] | [-> ->]]]; [destruct key| |];
      eexists; reflexivity.
Qed.

(** X16. Provisioning, then sealing, then opening: a user whose pair comes
    from [generateKeyPair] and whose keys are published and stored as the
    texts [exportKey] returns can open every file sealed for a recipient
    list that starts with their address and exported public key (the other
    recipients having valid keys), and gets the original bytes, name and
    type. *)
Theorem provisioned_user_opens {L : PlatformLaws P} {KL : KeyPairLaws P K}
    w0 pair w1 pub w2 priv w3 address others file fid md w :
  generateKeyPair w0 = (Return pair, w1) ->
  exportKey (PublicCryptoKey (publicKey pair)) spki w1 = (Return pub, w2) ->
  exportKey (PrivateCryptoKey (privateKey pair)) pkcs8 w2 = (Return priv, w3) ->
  Forall valid_recipient others ->
  exists e w4,
    createSealFile file (mkRecipient address pub :: others) fid md w = (Return e, w4)
    /\ forall w5, exists w6,
         openSealFile e address priv w5 =
         (Return (mkDecrypted (file_arrayBuffer file) (file_name file) (file_type file)),
          w6).
Proof.
  intros Hgen Hpub Hpriv Hothers.
  unfold generateKeyPair in Hgen. js_unfold.
  destruct (generateKey_rsa (random (logged (GenerateKey RSA_OAEP) w0)))
    as [[pk sk] g] eqn:Hg.
  injection Hgen as <- _. cbn in Hpub, Hpriv.
  apply generated_pair in Hg as [Hm Hw].
  unfold exportKey, subtle_exportKey in Hpub, Hpriv. js_unfold.
  injection Hpub as <- _. injection Hpriv as <- _.
  assert (Hvpk : validKey importKey_spki
                   (Base64.btoa (fromCharCodes (exportKey_spki pk))) = Some pk)
    by (rewrite validKey_btoa; apply importKey_exportKey_spki).
  assert (Hvsk : validKey importKey_pkcs8
                   (Base64.btoa (fromCharCodes (exportKey_pkcs8 sk))) = Some sk)
    by (rewrite validKey_btoa; apply importKey_exportKey_pkcs8).
  destruct (createSealFile_valid file
              (mkRecipient address (Base64.btoa (fromCharCodes (exportKey_spki pk)))
                 :: others) fid md w) as (e & w4 & He).
  { constructor; [|exact Hothers]. exists pk. split; [exact Hvpk | exact Hw]. }
  exists e, w4. split; [exact He|]. intros w5.
  apply (seal_then_open file _ fid md w e w4 address
           (mkRecipient address (Base64.btoa (fromCharCodes (exportKey_spki pk))))
           pk _ sk w5 He); [|exact Hvpk | exact Hm | exact Hvsk].
  unfold first_match. cbn [List.find recipient_email].
  now rewrite String.eqb_refl.
Qed.

End Keys.

(* ===================================================================== *)
(** ** The file store *)
(* ===================================================================== *)

Section StoreFacts.
Context {S : Supabase}.

(** X17. When [storeEncryptedFile] returns a file id, a user was signed in,
    the file row was inserted under that user's id and got the returned id
    without an error, and one row per recipient was inserted without an
    error, in the order given, each with the returned id, the address and
    wrapped key as given, and [accessed] false. These three requests are
    all it sent; nothing was deleted. *)
Theorem storeEncryptedFile_stored fileData recipients b id b' :
  storeEncryptedFile fileData recipients b = (StoredAs id, b') ->
  let rows := map (fun r => mkRecipientRow id (sr_email r) (sr_encrypted_key r) false)
                recipients in
  exists uid d1,
    auth_getUser (db b) = Some uid
    /\ sealed_files_insert (file_row uid fileData) (db b) = ((Some id, None), d1)
    /\ file_recipients_insert rows d1 = (None, db b')
    /\ requests b' = requests b ++ [GetUser; InsertFile (file_row uid fileData);
                                    InsertRecipients rows]
    /\ length rows = length recipients.
Proof.
  unfold storeEncryptedFile, file_row. cbn [db requests].
  destruct (auth_getUser (db b)) as [uid|]; [|discriminate].
  destruct (sealed_files_insert _ (db b)) as [[[id'|] [message|]] d1] eqn:E1;
    try discriminate.
  cbn [db requests].
  destruct (file_recipients_insert _ d1) as [[message|] d2] eqn:E2;
    [discriminate|].
  intros [= <- <-]. exists uid, d1. cbn [db requests].
  rewrite <- !app_assoc. cbn [app]. rewrite length_map. auto.
Qed.

(** X18. When [storeEncryptedFile] returns an error, one of three things
    happened. Nobody was signed in: the error is 'Not authenticated' and
    the database was only asked for the user. Or the insertion of the file
    row failed: no recipient row was sent and nothing was deleted. Or the
    insertion of the recipient rows failed: the error is the message of
    that failure, and the last request deletes the file row that had just
    been inserted, by its id. *)
Theorem storeEncryptedFile_failed fileData recipients b message b' :
  storeEncryptedFile fileData recipients b = (StoreError message, b') ->
  (auth_getUser (db b) = None
   /\ message = "Not authenticated"
   /\ db b' = db b
   /\ requests b' = requests b ++ [GetUser])
  \/ (exists uid fileRecord fileError,
        auth_getUser (db b) = Some uid
        /\ sealed_files_insert (file_row uid fileData) (db b)
           = ((fileRecord, fileError), db b')
        /\ (fileRecord = None \/ fileError <> None)
        /\ message = message_or (default "" fileError) "Failed to store file"
        /\ requests b' = requests b ++ [GetUser; InsertFile (file_row uid fileData)])
  \/ (exists uid id d1 d2 rows,
        auth_getUser (db b) = Some uid
        /\ sealed_files_insert (file_row uid fileData) (db b) = ((Some id, None), d1)
        /\ rows = map (fun r => mkRecipientRow id (sr_email r) (sr_encrypted_key r) false)
                    recipients
        /\ file_recipients_insert rows d1 = (Some message, d2)
        /\ db b' = sealed_files_delete id d2
        /\ requests b' = requests b ++ [GetUser; InsertFile (file_row uid fileData);
                                        InsertRecipients rows; DeleteFile id]).
Proof.
  unfold storeEncryptedFile, file_row. cbn [db requests].
  destruct (auth_getUser (db b)) as [uid|].
  2:{ intros [= <- <-]. left. auto. }
  destruct (sealed_files_insert _ (db b)) as [[[id|] [m|]] d1] eqn:E1;
    cbn [db requests].
  - intros [= <- <-]. right. left. exists uid, (Some id), (Some m).
    cbn. rewrite <- app_assoc. repeat split; auto; right; discriminate.
  - destruct (file_recipients_insert _ d1) as [[m|] d2] eqn:E2; [|discriminate].
    intros [= <- <-]. right. right. exists uid, id, d1, d2. eexists.
    cbn [db requests]. rewrite <- !app_assoc. cbn [app]. auto 10.
  - intros [= <- <-]. right. left. exists uid, None, (Some m).
    cbn. rewrite <- app_assoc. repeat split; auto.
  - intros [= <- <-]. right. left. exists uid, None, None.
    cbn. rewrite <- app_assoc. repeat split; auto.
Qed.

End StoreFacts.

(* ===================================================================== *)
(** ** The further properties on the symbolic browser *)
(* ===================================================================== *)

#[local] Existing Instance SymbolicKeys.keypairs.
#[local] Existing Instance SymbolicKeys.supabase.

Lemma symbolic_key_laws : KeyPairLaws Symbolic.platform SymbolicKeys.keypairs.
Proof.
  split.
  - reflexivity.
  - reflexivity.
  - intros g pk sk g' [= <- <- _]. split; [apply matching_same | apply wraps_any].
Qed.

(** The file key and the iv of the scenario. *)
Lemma file_encryption_round_trip_witness :
  exists encrypted ivb w1,
    encryptFile (file_arrayBuffer Symbolic.ten_bytes) (repeat x07 32) Symbolic.world0
    = (Return (encrypted, ivb), w1)
    /\ decryptFile encrypted (repeat x07 32) ivb Symbolic.world1
       = (Return (file_arrayBuffer Symbolic.ten_bytes),
          logged (Decrypt AES_GCM) Symbolic.world1).
Proof.
  destruct (file_encryption_round_trip (L := symbolic_laws)
              (file_arrayBuffer Symbolic.ten_bytes) (repeat x07 32) Symbolic.world0)
    as (encrypted & ivb & w1 & H1 & _ & H2).
  exists encrypted, ivb, w1. split; [exact H1 | apply H2].
Defined.

Lemma key_wrap_round_trip_witness :
  decryptKeyForRecipient (P := Symbolic.platform)
    (Symbolic.key_a ++ repeat x07 32) Symbolic.key_a Symbolic.world1
  = (Return (repeat x07 32),
     logged (ImportKey raw) (logged (Decrypt RSA_OAEP) Symbolic.world1)).
Proof.
  refine (key_wrap_round_trip (L := symbolic_laws) (repeat x07 32)
            Symbolic.key_a Symbolic.key_a Symbolic.world0
            (Symbolic.key_a ++ repeat x07 32) _ (matching_same Symbolic.key_a) _
            Symbolic.world1).
  reflexivity.
Defined.

Lemma createSealFile_effects_witness :
  clock Symbolic.world1 = clock Symbolic.world0
  /\ exists added,
       calls Symbolic.world1 = calls Symbolic.world0 ++ added
       /\ Forall (fun c => is_decrypt c = false) added
       /\ length added = 9%nat.
Proof.
  destruct (createSealFile_effects (P := Symbolic.platform) Symbolic.ten_bytes
              [Symbolic.alice; Symbolic.bob] "file-1" Symbolic.metadata0
              Symbolic.world0 _ _ sealed0)
    as (Hclock & _ & added & Hcalls & Hnone & Hall).
  split; [exact Hclock|]. exists added. split; [exact Hcalls|].
  split; [exact Hnone|]. now rewrite (Hall _ eq_refl).
Defined.

Lemma createSealFile_envelope_witness :
  exists k ivb,
    base64Bytes (encryptedData Symbolic.envelope0)
    = Some (encrypt_aes (Platform := Symbolic.platform) k ivb
              (file_arrayBuffer Symbolic.ten_bytes))
    /\ base64Bytes (iv Symbolic.envelope0) = Some ivb
    /\ Forall2 (wrapped k) [Symbolic.alice; Symbolic.bob]
         (recipients Symbolic.envelope0).
Proof.
  destruct (createSealFile_envelope (P := Symbolic.platform) Symbolic.ten_bytes
              [Symbolic.alice; Symbolic.bob] "file-1" Symbolic.metadata0
              Symbolic.world0 _ _ sealed0)
    as (k & g1 & ivb & g2 & _ & _ & _ & _ & _ & _ & _ & Hdata & Hiv & Hentries).
  exists k, ivb. auto.
Defined.

Lemma openSealFile_effects_witness :
  exists o w' added rest,
    openSealFile (P := Symbolic.platform) Symbolic.envelope0 "A@X.com"
      (Symbolic.private_of Symbolic.key_b) Symbolic.world1 = (o, w')
    /\ clock w' = clock Symbolic.world1
    /\ random w' = random Symbolic.world1
    /\ calls w' = calls Symbolic.world1 ++ added
    /\ added ++ rest
       = [ImportKey pkcs8; Decrypt RSA_OAEP; ImportKey raw; Decrypt AES_GCM].
Proof.
  pose proof (openSealFile_effects (P := Symbolic.platform) Symbolic.envelope0
                "A@X.com" (Symbolic.private_of Symbolic.key_b) Symbolic.world1) as H.
  destruct (openSealFile Symbolic.envelope0 "A@X.com"
              (Symbolic.private_of Symbolic.key_b) Symbolic.world1) as [o w'].
  destruct (H o w' eq_refl) as (Hc & Hr & _ & added & rest & Hcalls & Hparts & _).
  exists o, w', added, rest. auto.
Defined.

Lemma bad_private_key_rejected_witness :
  (exists name w',
      openSealFile (P := Symbolic.platform) Symbolic.envelope0 "a@x.com"
        "not base64!" Symbolic.world0 = (Throw (DOMException name), w')
      /\ (name = "InvalidCharacterError" /\ w' = Symbolic.world0
          \/ name = "DataError" /\ w' = logged (ImportKey pkcs8) Symbolic.world0))
  /\ validKey (importKey_pkcs8 (Platform := Symbolic.platform)) "AAAA" = None.
Proof.
  split; [|reflexivity].
  refine (bad_private_key_rejected (P := Symbolic.platform) Symbolic.envelope0
            "a@x.com" "not base64!" Symbolic.world0 _ _ _); reflexivity.
Defined.

(** [alice] opening with the key of [bob]; and [alice] opening, with her
    key, the envelope whose iv was changed. *)
Lemma decryption_failure_rejected_witness :
  openSealFile (P := Symbolic.platform) Symbolic.envelope0 "a@x.com"
    (Symbolic.private_of Symbolic.key_b) Symbolic.world0
  = (Throw (DOMException "OperationError"),
     logged (Decrypt RSA_OAEP) (logged (ImportKey pkcs8) Symbolic.world0))
  /\ openSealFile (P := Symbolic.platform) SymbolicKeys.tampered0 "a@x.com"
       (Symbolic.private_of Symbolic.key_a) Symbolic.world0
     = (Throw (DOMException "OperationError"),
        logged (Decrypt AES_GCM)
          (logged (ImportKey raw)
             (logged (Decrypt RSA_OAEP) (logged (ImportKey pkcs8) Symbolic.world0)))).
Proof.
  split.
  - refine (proj1 (decryption_failure_rejected (P := Symbolic.platform)
                     Symbolic.envelope0 "a@x.com" (Symbolic.private_of Symbolic.key_b)
                     Symbolic.world0 _ Symbolic.key_b
                     (Symbolic.key_a ++ repeat x07 32) _ _ _) _); reflexivity.
  - refine (proj2 (decryption_failure_rejected (P := Symbolic.platform)
                     SymbolicKeys.tampered0 "a@x.com"
                     (Symbolic.private_of Symbolic.key_a)
                     Symbolic.world0 _ Symbolic.key_a
                     (Symbolic.key_a ++ repeat x07 32) _ _ _)
                  (repeat x07 32) (repeat x07 32) _ _ _ _ _ _ _); reflexivity.
Defined.

(** A recipient on a device without a private key. *)
Lemma private_key_missing_witness :
  handleFileLoaded openSealFile (Some "a@x.com") Symbolic.envelope0 Symbolic.initial
    (mkWorld (P := Symbolic.platform) 2000 0%nat ∅ [])
  = (setStep error
       (setError private_key_not_found_error
          (setStep decrypting
             (setStep validating (setSealFile Symbolic.envelope0 Symbolic.initial)))),
     mkWorld (P := Symbolic.platform) 2000 0%nat ∅ []).
Proof.
  apply (private_key_missing (P := Symbolic.platform));
    [reflexivity | discriminate | reflexivity | reflexivity].
Defined.

(** [alice] with the key of [bob] in her browser. *)
Lemma viewer_decryption_outcome_witness :
  exists err w',
    primitive_failure err
    /\ handleFileLoaded openSealFile (Some "a@x.com") Symbolic.envelope0
         Symbolic.initial (Symbolic.browser 2000 (Symbolic.private_of Symbolic.key_b))
       = (setStep error
            (setError (decryption_failed_error err)
               (setStep decrypting
                  (setStep validating
                     (setSealFile Symbolic.envelope0 Symbolic.initial)))), w').
Proof.
  assert (Hkey : localStorage (Symbolic.browser 2000 (Symbolic.private_of Symbolic.key_b))
                 !! "seal_private_key" = Some (String "M" "AIL")) by reflexivity.
  assert (Hne : callerEmail (Some "a@x.com")
                  (Symbolic.browser 2000 (Symbolic.private_of Symbolic.key_b)) <> "")
    by discriminate.
  destruct (viewer_decryption_outcome (P := Symbolic.platform) (Some "a@x.com")
              Symbolic.envelope0 Symbolic.initial
              (Symbolic.browser 2000 (Symbolic.private_of Symbolic.key_b))
              "M" "AIL" eq_refl Hne eq_refl Hkey)
    as [(d & w' & Ho & _) | (err & w' & _ & Hp & Hh & _)].
  - exfalso.
    assert (E : openSealFile (P := Symbolic.platform) Symbolic.envelope0 "a@x.com"
                  "MAIL" (Symbolic.browser 2000 "MAIL")
                = (Throw (DOMException "OperationError"),
                   logged (Decrypt RSA_OAEP)
                     (logged (ImportKey pkcs8) (Symbolic.browser 2000 "MAIL"))))
      by reflexivity.
    pose proof (eq_trans (eq_sym Ho) E) as X. discriminate X.
  - exists err, w'. split; [exact Hp | exact Hh].
Defined.

(** [alice], whatever the case of her address, in a browser that holds her
    key, before the file expires. *)
Lemma seal_then_view_witness :
  render (handleFileLoaded openSealFile (Some "A@x.com") Symbolic.envelope0
            Symbolic.initial
            (Symbolic.browser 2000 (Symbolic.private_of Symbolic.key_a))).1
  = ViewingPanel
      (mkDecrypted (file_arrayBuffer Symbolic.ten_bytes) "a.txt" "text/plain")
      Symbolic.envelope0.
Proof.
  assert (Hne : callerEmail (Some "A@x.com")
                  (Symbolic.browser 2000 (Symbolic.private_of Symbolic.key_a)) <> "")
    by discriminate.
  destruct (seal_then_view (L := symbolic_laws) Symbolic.ten_bytes
              [Symbolic.alice; Symbolic.bob] "file-1" Symbolic.metadata0
              Symbolic.world0 Symbolic.envelope0 Symbolic.world1
              (Some "A@x.com") Symbolic.initial
              (Symbolic.browser 2000 (Symbolic.private_of Symbolic.key_a))
              Symbolic.alice Symbolic.key_a Symbolic.key_a "M" "AIK"
              sealed0 Hne eq_refl (validKey_public_of Symbolic.key_a)
              (matching_same Symbolic.key_a) eq_refl
              (validKey_private_of Symbolic.key_a) eq_refl)
    as (w' & _ & Hr).
  exact Hr.
Defined.

Lemma exported_key_imports_witness :
  exists text,
    exportKey (PublicCryptoKey (P := Symbolic.platform) Symbolic.key_a) spki
      Symbolic.world0
    = (Return text, logged (ExportKey spki) Symbolic.world0)
    /\ importPublicKey text Symbolic.world1
       = (Return Symbolic.key_a, logged (ImportKey spki) Symbolic.world1).
Proof.
  destruct (exported_key_imports (KL := symbolic_key_laws) Symbolic.key_a
              Symbolic.key_a Symbolic.world0) as ((text & H1 & H2) & _).
  exists text. split; [exact H1 | apply H2].
Defined.

(** A user provisioned in [Symbolic.world0], listed before [bob]. *)
Lemma provisioned_user_opens_witness :
  exists pair w1 pub priv e w4 w6,
    generateKeyPair (P := Symbolic.platform) Symbolic.world0 = (Return pair, w1)
    /\ createSealFile Symbolic.ten_bytes
         [mkRecipient "c@x.com" pub; Symbolic.bob] "file-2" ∅ Symbolic.world0
       = (Return e, w4)
    /\ openSealFile e "c@x.com" priv Symbolic.world0
       = (Return (mkDecrypted (file_arrayBuffer Symbolic.ten_bytes)
                    "a.txt" "text/plain"), w6).
Proof.
  assert (Hothers : Forall (valid_recipient (P := Symbolic.platform)) [Symbolic.bob])
    by (constructor; [apply valid_recipient_public_of | constructor]).
  destruct (provisioned_user_opens (L := symbolic_laws) (KL := symbolic_key_laws)
              Symbolic.world0
              (mkKeyPair (P := Symbolic.platform) [x07] [x07])
              (logged (GenerateKey RSA_OAEP)
                 (mkWorld (P := Symbolic.platform) 1000 8%nat ∅ []))
              (Symbolic.public_of [x07])
              (logged (ExportKey spki)
                 (logged (GenerateKey RSA_OAEP)
                    (mkWorld (P := Symbolic.platform) 1000 8%nat ∅ [])))
              (Symbolic.private_of [x07])
              (logged (ExportKey pkcs8)
                 (logged (ExportKey spki)
                    (logged (GenerateKey RSA_OAEP)
                       (mkWorld (P := Symbolic.platform) 1000 8%nat ∅ []))))
              "c@x.com" [Symbolic.bob] Symbolic.ten_bytes "file-2" ∅ Symbolic.world0
              eq_refl eq_refl eq_refl
              Hothers)
    as (e & w4 & H1 & H2).
  destruct (H2 Symbolic.world0) as (w6 & H3).
  eexists _, _, _, _, e, w4, w6. split; [reflexivity|]. split; [exact H1 | exact H3].
Defined.

Lemma storeEncryptedFile_stored_witness :
  exists b',
    storeEncryptedFile SymbolicKeys.file_data0
      [mkStoredRecipient "a@x.com" "k1"; mkStoredRecipient "b@x.com" "k2"]
      SymbolicKeys.backend0 = (StoredAs "0", b')
    /\ requests b'
       = [GetUser; InsertFile (file_row "user-1" SymbolicKeys.file_data0);
          InsertRecipients [mkRecipientRow "0" "a@x.com" "k1" false;
                            mkRecipientRow "0" "b@x.com" "k2" false]].
Proof.
  eexists. split; [reflexivity|].
  destruct (storeEncryptedFile_stored SymbolicKeys.file_data0
              [mkStoredRecipient "a@x.com" "k1"; mkStoredRecipient "b@x.com" "k2"]
              SymbolicKeys.backend0 "0" _ eq_refl)
    as (uid & d1 & Hu & _ & _ & Hr & _).
  injection Hu as <-. exact Hr.
Defined.

(** A recipient row without an address is refused by the database. *)
Lemma storeEncryptedFile_failed_witness :
  exists message b',
    storeEncryptedFile SymbolicKeys.file_data0
      [mkStoredRecipient "a@x.com" "k1"; mkStoredRecipient "" "k2"]
      SymbolicKeys.backend0 = (StoreError message, b')
    /\ last (requests b') = Some (DeleteFile "0")
    /\ SymbolicKeys.sealed_files (db b') = [].
Proof.
  eexists _, _. split; [reflexivity|].
  destruct (storeEncryptedFile_failed SymbolicKeys.file_data0
              [mkStoredRecipient "a@x.com" "k1"; mkStoredRecipient "" "k2"]
              SymbolicKeys.backend0 _ _ eq_refl)
    as [(Hu & _) | [(uid & r & e & _ & Hi & [-> | He] & _)
                   | (uid & id & d1 & d2 & rows & _ & _ & _ & _ & _ & _)]].
  - discriminate Hu.
  - discriminate Hi.
  - injection Hi as _ <- _. now contradiction He.
  - split; reflexivity.
Defined.

(* ===================================================================== *)
(** ** The dashboard and the server *)
(* ===================================================================== *)

Section Logout.
Context {P : Platform}.

Lemma handleLogout_storage (w : World) :
  localStorage (handleLogout false w) !! "seal_private_key" = None
  /\ localStorage (handleLogout false w) !! "seal_user_email" = None
  /\ clock (handleLogout false w) = clock w.
Proof.
  cbn. rewrite lookup_delete_ne by discriminate.
  rewrite !lookup_delete. auto.
Qed.

(** X19. After [handleLogout] of the dashboard (outside the demo mode) the
    viewer page decrypts nothing in that browser: whatever file is loaded,
    and whatever address the page still holds, [handleFileLoaded] ends in
    an error without calling [openSealFile] and leaves the browser as it
    was; when the page holds no address and the file has not expired, the
    error is 'Not logged in'. *)
Theorem logout_locks_viewer lib ue seal st w :
  let w' := handleLogout false w in
  (forall lib', handleFileLoaded lib' ue seal st w' = handleFileLoaded lib ue seal st w')
  /\ (handleFileLoaded lib ue seal st w').2 = w'
  /\ step (handleFileLoaded lib ue seal st w').1 = error
  /\ (or_else ue "" = "" ->
      expiredAt seal (clock w) = None ->
      viewerError (handleFileLoaded lib ue seal st w').1 = Some not_logged_in_error).
Proof.
  intros w'. destruct (handleLogout_storage w) as (Hkey & Hmail & Hclock).
  fold w' in Hkey, Hmail, Hclock.
  assert (Hcaller : callerEmail ue w' = or_else ue "")
    by (unfold callerEmail; now rewrite Hmail).
  unfold handleFileLoaded, decryptStep. rewrite Hkey, Hcaller, Hclock.
  split; [|split; [|split]].
  - intros lib'. reflexivity.
  - destruct (expiredAt seal (clock w)); [reflexivity|].
    destruct (String.eqb (or_else ue "") ""); [reflexivity|].
    destruct (negb _); reflexivity.
  - destruct (expiredAt seal (clock w)); [reflexivity|].
    destruct (String.eqb (or_else ue "") ""); [reflexivity|].
    destruct (negb _); reflexivity.
  - intros -> ->. reflexivity.
Qed.

End Logout.

Lemma prefix_append (p b : string) : String.prefix p (p +:+ b) = true.
Proof.
  induction p as [|c p IH].
  - now destruct b.
  - change (String c p +:+ b) with (String c (p +:+ b)). cbn [String.prefix].
    destruct (ascii_dec c c); [exact IH | congruence].
Qed.

Lemma prefix_inv (p s : string) :
  String.prefix p s = true -> exists b, s = p +:+ b.
Proof.
  revert s. induction p as [|c p IH]; intros s.
  - exists s. reflexivity.
  - destruct s as [|c' s]; cbn [String.prefix]; [discriminate|].
    destruct (ascii_dec c c') as [<-|]; [|discriminate].
    intros H. apply IH in H as [b ->]. exists b. reflexivity.
Qed.

Lemma includes_unfold (sub s : string) :
  includes sub s
  = String.prefix sub s
    || match s with
       | EmptyString => false
       | String _ rest => includes sub rest
       end.
Proof. destruct s; reflexivity. Qed.

Lemma includes_spec (sub s : string) :
  includes sub s = true <-> exists a b, s = a +:+ sub +:+ b.
Proof.
  split.
  - induction s as [|c s IH]; rewrite includes_unfold; intros H;
      apply orb_true_iff in H as [H|H].
    + apply prefix_inv in H as [b ->]. exists "", b. reflexivity.
    + discriminate.
    + apply prefix_inv in H as [b ->]. exists "", b. reflexivity.
    + apply IH in H as (a & b & ->). exists (String c a), b. reflexivity.
  - intros (a & b & ->). induction a as [|c a IH].
    + change ("" +:+ sub +:+ b) with (sub +:+ b).
      rewrite includes_unfold. now rewrite prefix_append.
    + change (String c a +:+ sub +:+ b) with (String c (a +:+ sub +:+ b)).
      rewrite includes_unfold, IH. apply orb_true_r.
Qed.

(** X20. The CORS headers name an allowed origin exactly when the request
    has an [Origin] header that starts with [chrome-extension://] or has
    [seal.email] somewhere in it, and the origin they name is then the
    request's own, with credentials allowed; for every other request there
    are no CORS headers at all. *)
Theorem corsHeaders_allow_origin (origin_header : option string) :
  (forall origin,
      corsHeaders origin_header !! "Access-Control-Allow-Origin" = Some origin
      <-> origin_header = Some origin
          /\ ((exists id, origin = "chrome-extension://" +:+ id)
              \/ exists a b, origin = a +:+ "seal.email" +:+ b))
  /\ (forall origin,
        corsHeaders origin_header !! "Access-Control-Allow-Origin" = Some origin ->
        corsHeaders origin_header !! "Access-Control-Allow-Credentials" = Some "true"
        /\ size (corsHeaders origin_header) = 4%nat)
  /\ (corsHeaders origin_header !! "Access-Control-Allow-Origin" = None ->
      corsHeaders origin_header = ∅).
Proof.
  unfold corsHeaders.
  destruct (String.prefix "chrome-extension://" (or_else origin_header "")
            || includes "seal.email" (or_else origin_header "")) eqn:E.
  - assert (Hsome : exists o, origin_header = Some o /\ or_else origin_header "" = o).
    { destruct origin_header as [[|c o]|]; try discriminate E; eauto. }
    destruct Hsome as (o & -> & Ho). rewrite Ho in *. clear Ho.
    split; [|split].
    + intros origin. split.
      * intros [= <-]. split; [reflexivity|].
        apply orb_true_iff in E as [E|E].
        -- left. now apply prefix_inv.
        -- right. now apply includes_spec.
      * intros [[= <-] _]. reflexivity.
    + intros origin _. split; reflexivity.
    + discriminate.
  - split; [|split].
    + intros origin. split; [discriminate|].
      intros [-> H]. exfalso. apply orb_false_iff in E as [E1 E2].
      assert (Ho : or_else (Some origin) "" = origin) by (destruct origin; reflexivity).
      rewrite Ho in E1, E2.
      destruct H as [[id ->] | (a & b & ->)].
      * now rewrite prefix_append in E1.
      * assert (X : includes "seal.email" (a +:+ "seal.email" +:+ b) = true)
          by (apply includes_spec; eauto).
        congruence.
    + discriminate.
    + reflexivity.
Qed.

(** X21. The middleware never sends a visitor in a circle and never serves
    a protected page without a session: the page it redirects to is one it
    lets through for the same visitor; without a session, what it lets
    through is neither under [/dashboard] nor under [/viewer]; and a path
    under [/api/] is let through whatever the session. *)
Theorem middleware_guards (pathname : string) (session : bool) :
  (forall target,
      middleware pathname session = Redirect target ->
      middleware target session = Next
      /\ (target = "/login" /\ session = false
          \/ target = "/dashboard" /\ session = true))
  /\ (middleware pathname false = Next ->
      String.prefix "/dashboard" pathname = false
      /\ String.prefix "/viewer" pathname = false)
  /\ (String.prefix "/api/" pathname = true -> middleware pathname session = Next).
Proof.
  unfold middleware. split; [|split].
  - intros target.
    destruct (String.prefix "/api/" pathname); [discriminate|].
    destruct (String.prefix "/dashboard" pathname || String.prefix "/viewer" pathname),
      (String.eqb pathname "/login" || String.eqb pathname "/signup"),
      session; cbn [andb negb]; intros H; try discriminate H;
      injection H as <-; (split; [reflexivity | auto]).
  - destruct (String.prefix "/api/" pathname) eqn:E.
    + apply prefix_inv in E as [b ->]. intros _. split; reflexivity.
    + destruct (String.prefix "/dashboard" pathname), (String.prefix "/viewer" pathname);
        cbn; try discriminate; auto.
  - intros ->. reflexivity.
Qed.

Section FilesRouteFacts.
Context {P : Platform} {A : AdminClient}.

Lemma lower_char_idempotent (c : ascii) : lower_char (lower_char c) = lower_char c.
Proof. destruct c as [[] [] [] [] [] [] [] []]; reflexivity. Qed.

Lemma toLowerCase_idempotent (s : string) : toLowerCase (toLowerCase s) = toLowerCase s.
Proof.
  induction s as [|c s IH]; [reflexivity|].
  cbn. now rewrite lower_char_idempotent, IH.
Qed.

(** X22. [POST /api/files] stores nothing for a request that lacks a file
    id, a file name or a recipient (the list absent or empty): the server
    is left as it was and no request reaches the database; an authenticated
    caller is answered 400 'Missing required fields', any other caller 401. *)
Theorem files_post_requires_fields origin_header auth request env s :
  or_else (req_fileId request) "" = ""
  \/ or_else (req_filename request) "" = ""
  \/ default [] (req_recipientEmails request) = [] ->
  POST origin_header auth (Some request) env s
  = (mkResponse
       (ErrorBody (if authenticated auth then "Missing required fields"
                   else "Not authenticated"))
       (if authenticated auth then 400 else 401)
       (corsHeaders origin_header), s).
Proof.
  intros H. unfold POST. destruct (authenticated auth); [|reflexivity]. cbn [negb].
  destruct (req_fileId request) as [[|c1 f]|]; try reflexivity;
    destruct (req_filename request) as [[|c2 n]|]; try reflexivity;
    destruct (req_recipientEmails request) as [[|e es]|]; try reflexivity.
  cbn in H. destruct H as [H | [H | H]]; discriminate H.
Qed.

(** X23. When [POST /api/files] answers 200, the caller was authenticated,
    the request had a file id, a file name and at least one recipient, and
    the handler sent two requests: the insertion of the file row with that
    id, the caller's user id as sender, the name and the expiry as given;
    and the insertion of one row per recipient, in order, under the id the
    database returned, which is the id of the answer. The stored addresses
    are the given ones in lower case, so the comparison [openSealFile] and
    the viewer make treats a stored address like the given one. *)
Theorem files_post_success origin_header auth json env s r s' :
  POST origin_header auth json env s = (r, s') ->
  status r = 200%Z ->
  exists request fileId filename emails id,
    json = Some request
    /\ authenticated auth = true
    /\ req_fileId request = Some fileId /\ fileId <> ""
    /\ req_filename request = Some filename /\ filename <> ""
    /\ req_recipientEmails request = Some emails /\ emails <> []
    /\ r = mkResponse (SuccessBody id) 200 (corsHeaders origin_header)
    /\ admin_requests s'
       = admin_requests s
         ++ [AdminInsertFile
               (mkSealedFileRecord fileId (userId auth) filename (req_expiresAt request));
             AdminInsertRecipients
               (map (fun email => mkFileRecipientRecord id (toLowerCase email) false)
                  emails)]
    /\ forall email caller key,
         In email emails ->
         same_email caller (mkEntry (toLowerCase email) key)
         = same_email caller (mkEntry email key).
Proof.
  unfold POST. destruct (authenticated auth); cbn [negb];
    [|intros [= <- <-]; discriminate].
  destruct json as [request|]; [|intros [= <- <-]; discriminate].
  destruct (req_fileId request) as [[|c1 f]|] eqn:E1;
    try (intros [= <- <-]; discriminate).
  destruct (req_filename request) as [[|c2 n]|] eqn:E2;
    try (intros [= <- <-]; discriminate).
  destruct (req_recipientEmails request) as [[|e es]|] eqn:E3;
    try (intros [= <- <-]; discriminate).
  destruct (NEXT_PUBLIC_SUPABASE_URL env) as [[|? ?]|];
    try (intros [= <- <-]; discriminate).
  destruct (SUPABASE_SERVICE_ROLE_KEY env) as [[|? ?]|];
    try (intros [= <- <-]; discriminate).
  destruct (admin_files_insert _ (admin_db s)) as [[[id|] [m|]] d];
    cbn [admin_db admin_requests]; try (intros [= <- <-]; discriminate).
  destruct (admin_recipients_insert _ d) as [[m|] d2];
    [intros [= <- <-]; discriminate|].
  intros [= <- <-] _.
  exists request, (String c1 f), (String c2 n), (e :: es), id.
  cbn [admin_requests]. rewrite <- app_assoc. cbn [app].
  repeat split; try assumption; try discriminate.
  intros address caller key _. unfold same_email. cbn.
  now rewrite toLowerCase_idempotent.
Qed.

(** X24. When the insertion of the recipient rows fails, [POST /api/files]
    answers 500 'Failed to save recipient data' and its last request
    deletes the file row by the id the database had returned for it; no
    other answer of the handler comes with a deletion. The answer always
    carries the CORS headers of the request and one of the statuses 200,
    400, 401 and 500. *)
Theorem files_post_cleanup origin_header auth json env s r s' :
  POST origin_header auth json env s = (r, s') ->
  headers r = corsHeaders origin_header
  /\ In (status r) [200; 400; 401; 500]%Z
  /\ ((exists id, In (AdminDeleteFile id) (drop (length (admin_requests s)) (admin_requests s')))
      <-> body r = ErrorBody "Failed to save recipient data")
  /\ (body r = ErrorBody "Failed to save recipient data" ->
      exists row id d1 rows d2,
        admin_files_insert row (admin_db s) = ((Some id, None), d1)
        /\ (exists message, admin_recipients_insert rows d1 = (Some message, d2))
        /\ admin_db s' = admin_files_delete id d2
        /\ admin_requests s'
           = admin_requests s
             ++ [AdminInsertFile row; AdminInsertRecipients rows; AdminDeleteFile id]).
Proof.
  unfold POST.
  assert (Hdrop : forall (l k : list AdminRequest), drop (length l) (l ++ k) = k).
  { intros l k. now rewrite drop_app_length. }
  assert (Hnil : drop (length (admin_requests s)) (admin_requests s) = []).
  { apply drop_all. }
  destruct (authenticated auth); cbn [negb].
  2:{ intros [= <- <-]. cbn. rewrite Hnil.
      repeat split; auto 10; try discriminate; intros [id []]. }
  destruct json as [request|].
  2:{ intros [= <- <-]. cbn. rewrite Hnil.
      repeat split; auto 10; try discriminate; intros [id []]. }
  destruct (req_fileId request) as [[|c1 f]|];
    try (intros [= <- <-]; cbn; rewrite Hnil;
         repeat split; auto 10; try discriminate; intros [id []]).
  destruct (req_filename request) as [[|c2 n]|];
    try (intros [= <- <-]; cbn; rewrite Hnil;
         repeat split; auto 10; try discriminate; intros [id []]).
  destruct (req_recipientEmails request) as [[|e es]|];
    try (intros [= <- <-]; cbn; rewrite Hnil;
         repeat split; auto 10; try discriminate; intros [id []]).
  destruct (NEXT_PUBLIC_SUPABASE_URL env) as [[|? ?]|];
    try (intros [= <- <-]; cbn; rewrite Hnil;
         repeat split; auto 10; try discriminate; intros [id []]).
  destruct (SUPABASE_SERVICE_ROLE_KEY env) as [[|? ?]|];
    try (intros [= <- <-]; cbn; rewrite Hnil;
         repeat split; auto 10; try discriminate; intros [id []]).
  destruct (admin_files_insert _ (admin_db s)) as [[[id|] [m|]] d] eqn:E1;
    cbn [admin_db admin_requests];
    try (intros [= <- <-]; cbn; rewrite Hdrop;
         repeat split; auto 10; try discriminate;
         intros [id' [X | []]]; discriminate X).
  destruct (admin_recipients_insert _ d) as [[m|] d2] eqn:E2;
    intros [= <- <-]; cbn [headers status body admin_db admin_requests];
    rewrite <- !app_assoc; cbn [app]; rewrite Hdrop.
  - split; [reflexivity|]. split; [cbn; auto 10|]. split.
    + split; [reflexivity|]. intros _. exists id. cbn. auto.
    + intros _. eexists _, id, d, _, d2. repeat split; eauto.
  - split; [reflexivity|]. split; [cbn; auto 10|]. split.
    + split; [|discriminate]. intros [id' [X | [X | []]]]; discriminate X.
    + discriminate.
Qed.

End FilesRouteFacts.

(* ===================================================================== *)
(** ** The dashboard and the server, on concrete requests *)
(* ===================================================================== *)

#[local] Existing Instance SymbolicServer.admin.

(** [alice] after logging out of the browser that held her key. *)
Lemma logout_locks_viewer_witness :
  viewerError
    (handleFileLoaded openSealFile None Symbolic.envelope0 Symbolic.initial
       (handleLogout false
          (Symbolic.browser 2000 (Symbolic.private_of Symbolic.key_a)))).1
  = Some not_logged_in_error.
Proof.
  exact (proj2 (proj2 (proj2
           (logout_locks_viewer (P := Symbolic.platform) openSealFile None
              Symbolic.envelope0 Symbolic.initial
              (Symbolic.browser 2000 (Symbolic.private_of Symbolic.key_a)))))
           eq_refl eq_refl).
Defined.

(** An origin that has [seal.email] in the middle of its host name, and one
    that does not have it. *)
Lemma corsHeaders_allow_origin_witness :
  corsHeaders (Some "https://seal.email.example.org") !! "Access-Control-Allow-Origin"
  = Some "https://seal.email.example.org"
  /\ corsHeaders (Some "https://example.org") = ∅.
Proof.
  split.
  - apply (proj1 (corsHeaders_allow_origin (Some "https://seal.email.example.org"))).
    split; [reflexivity|]. right. exists "https://", ".example.org". reflexivity.
  - apply (proj2 (proj2 (corsHeaders_allow_origin (Some "https://example.org")))).
    reflexivity.
Defined.

Lemma middleware_guards_witness :
  middleware "/viewer/abc" false = Redirect "/login"
  /\ middleware "/login" false = Next.
Proof.
  split; [reflexivity|].
  apply (proj1 (middleware_guards "/viewer/abc" false) "/login" eq_refl).
Defined.

(** A request with an empty list of recipients. *)
Lemma files_post_requires_fields_witness :
  POST (Some "https://seal.email") SymbolicServer.auth0
    (Some (mkFilesRequest (Some "file-1") (Some "a.txt") (Some []) None None))
    SymbolicServer.env0 SymbolicServer.server0
  = (mkResponse (ErrorBody "Missing required fields") 400
       (corsHeaders (Some "https://seal.email")), SymbolicServer.server0).
Proof.
  apply (files_post_requires_fields (Some "https://seal.email") SymbolicServer.auth0
           (mkFilesRequest (Some "file-1") (Some "a.txt") (Some []) None None)).
  right. right. reflexivity.
Defined.

Lemma files_post_success_witness :
  exists r s' id,
    POST None SymbolicServer.auth0 (Some SymbolicServer.request0)
      SymbolicServer.env0 SymbolicServer.server0 = (r, s')
    /\ r = mkResponse (SuccessBody id) 200 (corsHeaders None)
    /\ exists rows,
         admin_requests s'
         = [AdminInsertFile (mkSealedFileRecord "file-1" (Some "user-1") "a.txt"
                               (Some "5000"));
            AdminInsertRecipients rows]
         /\ map record_recipient_email rows = ["a@x.com"; "b@x.com"].
Proof.
  eexists _, _, _. split; [reflexivity|].
  destruct (files_post_success None SymbolicServer.auth0 (Some SymbolicServer.request0)
              SymbolicServer.env0 SymbolicServer.server0 _ _ eq_refl eq_refl)
    as (request & fileId & filename & emails & id & _).
  split; [reflexivity|]. eexists. split; reflexivity.
Defined.

(** A request with a recipient whose address is empty. *)
Lemma files_post_cleanup_witness :
  exists r s',
    POST None SymbolicServer.auth0
      (Some (mkFilesRequest (Some "file-1") (Some "a.txt") (Some [""]) None None))
      SymbolicServer.env0 SymbolicServer.server0 = (r, s')
    /\ r = mkResponse (ErrorBody "Failed to save recipient data") 500 (corsHeaders None)
    /\ last (admin_requests s') = Some (AdminDeleteFile "file-1")
    /\ SymbolicServer.sealed_files (admin_db s') = [].
Proof.
  eexists _, _. split; [reflexivity|].
  destruct (files_post_cleanup None SymbolicServer.auth0
              (Some (mkFilesRequest (Some "file-1") (Some "a.txt") (Some [""]) None None))
              SymbolicServer.env0 SymbolicServer.server0 _ _ eq_refl)
    as (_ & _ & _ & _).
  split; [reflexivity|]. split; reflexivity.
Defined.
